(** * conventor.py: unit conversion, credential store, feedback and the pages

    A shallow embedding of [conventor.py]: the registry
    [unit_conversions], [convert_units], the credential store
    ([load_users], [save_users], [hash_password], [register_user],
    [authenticate_user]), the feedback store ([save_feedback],
    [load_feedback]), the handlers of the pages ([login_section],
    [conversion_history], [feedback_section], [review_section],
    [admin_panel]) and the runs of [main], followed by the properties
    of that code.

    Python values are embedded as follows.
    - [float] is a C double: Rocq's primitive binary64 [float], whose
      operations round to nearest, ties to even, as CPython's do.
    - [str] is a [string] holding the UTF-8 bytes of the text.
    - An exception is a value of [exn]; a computation that may raise
      has type [py A].
    - A [dict] literal of the program is an association list in source
      order; a JSON object read from disk is a [gmap].
    - What the program takes from outside are arguments: the readings
      of the clock, TextBlob's sentiment, the text of a formatted
      float and the verdict of [datetime.fromisoformat]. *)

From Stdlib Require Import ZArith QArith Qabs Qpower List String Ascii Floats.
From Stdlib Require Import Lia Lqa Permutation Sorted.
From stdpp Require Import base option list gmap strings.
From Stdlib Require OrderedTypeEx.

#[local] Set Warnings "-inexact-float,-register-all".
#[local] Close Scope Q_scope.

(** ** Exceptions and the [py] monad *)

Inductive exn : Type :=
| KeyError (key : string)
| TypeError
| ZeroDivisionError
| OverflowError
| FileNotFoundError
| JSONDecodeError
| UnicodeDecodeError.

Inductive py (A : Type) : Type :=
| Return (a : A)
| Raise (e : exn).

Arguments Return {A} a.
Arguments Raise {A} e.

#[global] Instance py_ret : MRet py := fun A a => Return a.

#[global] Instance py_bind : MBind py := fun A B f m =>
  match m with
  | Return a => f a
  | Raise e => Raise e
  end.

(** [try: body except (classes): handler] *)
Definition try_except {A} (body : py A) (classes : exn -> bool) (handler : py A) : py A :=
  match body with
  | Return a => Return a
  | Raise e => if classes e then handler else Raise e
  end.

Definition is_KeyError (e : exn) : bool :=
  match e with KeyError _ => true | _ => false end.

Definition is_FileNotFound_or_JSONDecode (e : exn) : bool :=
  match e with FileNotFoundError | JSONDecodeError => true | _ => false end.

(** ** Floats *)

Module PyFloat.

(** The double nearest to the rational [n / d] for [0 <= n], with the
    sign [s], ties to even: the value [strtod] reads from a decimal
    numeral. *)
Definition nearest (s : bool) (n : Z) (d : positive) : spec_float :=
  match n with
  | Zpos p => SFdiv prec emax (S754_finite s p 0) (S754_finite false d 0)
  | _ => S754_zero s
  end.

(** [float(n)] for an [int]: the nearest double, [OverflowError] when
    it is out of range. *)
Definition of_int (n : Z) : py float :=
  match binary_normalize prec emax n 0 false with
  | S754_infinity _ => Raise OverflowError
  | r => Return (SF2Prim r)
  end.

(** [n / d] rounded to the nearest integer, ties to even, for
    [0 <= n] and [0 < d]. *)
Definition div_half_even (n d : Z) : Z :=
  let q := (n / d)%Z in
  match (2 * (n mod d) ?= d)%Z with
  | Lt => q
  | Gt => (q + 1)%Z
  | Eq => if Z.even q then q else (q + 1)%Z
  end.

(** [round(x, ndigits)] for [0 <= ndigits] small enough that no
    shortcut of [float.__round__] applies (it is called with 6): the
    exact value of [x] is rounded to a multiple of [10 ** -ndigits],
    ties to even, keeping the sign of [x], and the decimal result is
    read back as a double. Infinities and nans round to themselves. *)
Definition round (x : float) (ndigits : N) : py float :=
  match Prim2SF x with
  | S754_finite s m e =>
      let p := (10 ^ Z.of_N ndigits)%Z in
      let k := if (0 <=? e)%Z
               then (Zpos m * 2 ^ e * p)%Z
               else div_half_even (Zpos m * p) (2 ^ (- e)) in
      match nearest s k (Z.to_pos p) with
      | S754_infinity _ => Raise OverflowError
      | r => Return (SF2Prim r)
      end
  | _ => Return x
  end.

(** [math.isfinite(x)] *)
Definition finite (x : float) : bool :=
  match Prim2SF x with
  | S754_zero _ | S754_finite _ _ _ => true
  | _ => false
  end.

(** [r] is the double nearest to a multiple of [10 ** -ndigits]. *)
Definition decimal (ndigits : N) (r : float) : Prop :=
  exists s k, r = SF2Prim (nearest s k (Z.to_pos (10 ^ Z.of_N ndigits))).

(** The rational number a finite double stands for, and 0 for the
    others. *)
Definition pow2 (e : Z) : Q := (2 ^ e)%Q.

Definition SF2Q (f : spec_float) : Q :=
  match f with
  | S754_finite s m e =>
      let v := (inject_Z (Zpos m) * pow2 e)%Q in if s then (- v)%Q else v
  | _ => 0%Q
  end.

Definition value (x : float) : Q := SF2Q (Prim2SF x).

(** Half a unit in the last place of a normal double, relative to it:
    [2 ** -53]. *)
Definition ulp_half : Q := 1 # 9007199254740992.

(** [x] is a positive normal double of mantissa [m] and exponent [e]. *)
Definition normal_pos (x : float) (m : positive) (e : Z) : Prop :=
  Prim2SF x = S754_finite false m e /\ Zpos (digits2_pos m) = 53%Z.

(** The state of a right shift: [P] is [m * U] and a rest below [U]
    that the round and sticky bits locate against the half of [U]. *)
Definition located (P U : Z) (mrs : shr_record) : Prop :=
  exists rest,
    (P = shr_m mrs * U + rest /\ 0 <= rest < U
     /\ (if shr_r mrs then U <= 2 * rest else 2 * rest < U)
     /\ (shr_s mrs = false -> rest = 0 \/ 2 * rest = U))%Z.

End PyFloat.

(** ** The unit registry *)

(** The objects the registry holds: numbers, one-argument lambdas over
    floats, and dicts keyed by strings. *)
Inductive pyobj : Type :=
| PyInt (n : Z)
| PyNum (x : float)
| PyLambda (f : float -> float)
| PyDict (items : list (string * pyobj)).

Fixpoint dict_get {V} (items : list (string * V)) (k : string) : option V :=
  match items with
  | [] => None
  | (k', v) :: rest => if String.eqb k' k then Some v else dict_get rest k
  end.

Definition keys {V} (items : list (string * V)) : list string := map fst items.

(** [o[k]] *)
Definition getitem (o : pyobj) (k : string) : py pyobj :=
  match o with
  | PyDict items =>
      match dict_get items k with
      | Some v => Return v
      | None => Raise (KeyError k)
      end
  | _ => Raise TypeError
  end.

(** [k in o] *)
Definition contains (k : string) (o : pyobj) : py bool :=
  match o with
  | PyDict items =>
      Return (match dict_get items k with Some _ => true | None => false end)
  | _ => Raise TypeError
  end.

(** [o(x)] *)
Definition call (o : pyobj) (x : float) : py float :=
  match o with
  | PyLambda f => Return (f x)
  | _ => Raise TypeError
  end.

(** The float operand a number contributes to arithmetic with a float. *)
Definition as_float (o : pyobj) : py float :=
  match o with
  | PyInt n => PyFloat.of_int n
  | PyNum x => Return x
  | _ => Raise TypeError
  end.

(** [x * o] for a float [x] *)
Definition mul (x : float) (o : pyobj) : py float :=
  y ← as_float o; Return (x * y)%float.

(** [x / o] for a float [x] *)
Definition truediv (x : float) (o : pyobj) : py float :=
  y ← as_float o;
  if (y =? 0)%float then Raise ZeroDivisionError else Return (x / y)%float.

Definition unit_conversions : pyobj :=
  PyDict
    [ ("Energy", PyDict [("J", PyInt 1); ("eV", PyNum 1.60218e-19); ("Ha", PyNum 4.35974e-18)]);
      ("Length", PyDict [("m", PyInt 1); ("nm", PyNum 1e-9); ("√Ö", PyNum 1e-10); ("feet", PyNum 0.3048)]);
      ("Time", PyDict [("s", PyInt 1); ("fs", PyNum 1e-15); ("day", PyInt 86400)]);
      ("Frequency", PyDict [("Hz", PyInt 1); ("THz", PyNum 1e12)]);
      ("Mass", PyDict [("kg", PyInt 1); ("amu", PyNum 1.66054e-27); ("pounds", PyNum 0.453592)]);
      ("Speed", PyDict [("m/s", PyInt 1); ("mph", PyNum 0.44704); ("km/h", PyNum 0.277778)]);
      ("Temperature", PyDict
         [ ("C", PyDict [("to_base", PyLambda (fun x => x));
                         ("from_base", PyLambda (fun x => x))]);
           ("F", PyDict [("to_base", PyLambda (fun x => (x - 32) * 5 / 9)%float);
                         ("from_base", PyLambda (fun x => x * 9 / 5 + 32)%float)]);
           ("K", PyDict [("to_base", PyLambda (fun x => x - 273.15)%float);
                         ("from_base", PyLambda (fun x => x + 273.15)%float)]) ]) ].

(** ** Conversion *)

(** The result is [Some r] for a float [r] and [None] for Python's
    [None]. *)
Definition convert_units (value : float) (from_unit to_unit unit_type : string)
  : py (option float) :=
  if String.eqb unit_type "Temperature" then
    try_except
      (category ← getitem unit_conversions unit_type;
       src ← getitem category from_unit;
       to_base ← getitem src "to_base";
       base_value ← call to_base value;
       category' ← getitem unit_conversions unit_type;
       dst ← getitem category' to_unit;
       from_base ← getitem dst "from_base";
       result ← call from_base base_value;
       r ← PyFloat.round result 6;
       Return (Some r))
      is_KeyError
      (Return None)
  else
    (factors ← getitem unit_conversions unit_type;
     has_from ← contains from_unit factors;
     has_to ← (if has_from : bool then contains to_unit factors else Return false);
     if has_to : bool then
       (f_to ← getitem factors to_unit;
        p ← mul value f_to;
        f_from ← getitem factors from_unit;
        q ← truediv p f_from;
        Return (Some q))
     else Return None).

(** ** Reading the registry *)

(** [list(unit_conversions.keys())] and
    [list(unit_conversions[category].keys())], as the select boxes of
    the converter list them. *)
Definition categories : list string :=
  match unit_conversions with
  | PyDict items => keys items
  | _ => []
  end.

Definition units (category : string) : list string :=
  match getitem unit_conversions category with
  | Return (PyDict items) => keys items
  | _ => []
  end.

(** The scalar a unit of a linear category carries, as a float. *)
Definition factor (category unit : string) : option float :=
  match (c ← getitem unit_conversions category; f ← getitem c unit; as_float f) with
  | Return x => Some x
  | Raise _ => None
  end.

(** The function a Temperature unit carries under [key]. *)
Definition scale (unit key : string) : option (float -> float) :=
  match (c ← getitem unit_conversions "Temperature"; u ← getitem c unit; getitem u key) with
  | Return (PyLambda f) => Some f
  | _ => None
  end.

(** ** Strings *)

(** [len(s)]: the number of code points of [s], that is, of the bytes
    of its UTF-8 encoding that are not continuation bytes. *)
Definition is_continuation (c : ascii) : bool :=
  let n := N_of_ascii c in (128 <=? n)%N && (n <? 192)%N.

Fixpoint len (s : string) : nat :=
  match s with
  | EmptyString => 0
  | String c s' => (if is_continuation c then 0 else 1) + len s'
  end.

(** [s.encode()]: the UTF-8 bytes. *)
Definition encode (s : string) : list Z :=
  map (fun c => Z.of_N (N_of_ascii c)) (list_ascii_of_string s).

(** ** [hashlib.sha256] (FIPS 180-4) *)

Module SHA256.
#[local] Open Scope Z_scope.

Definition w32 (x : Z) : Z := x mod 2 ^ 32.
Definition add32 (x y : Z) : Z := w32 (x + y).
Definition rotr (n x : Z) : Z := Z.lor (Z.shiftr x n) (w32 (Z.shiftl x (32 - n))).
Definition not32 (x : Z) : Z := 2 ^ 32 - 1 - x.

Definition Ch (x y z : Z) : Z := Z.lxor (Z.land x y) (Z.land (not32 x) z).
Definition Maj (x y z : Z) : Z :=
  Z.lxor (Z.lxor (Z.land x y) (Z.land x z)) (Z.land y z).
Definition Sigma0 (x : Z) : Z := Z.lxor (Z.lxor (rotr 2 x) (rotr 13 x)) (rotr 22 x).
Definition Sigma1 (x : Z) : Z := Z.lxor (Z.lxor (rotr 6 x) (rotr 11 x)) (rotr 25 x).
Definition sigma0 (x : Z) : Z := Z.lxor (Z.lxor (rotr 7 x) (rotr 18 x)) (Z.shiftr x 3).
Definition sigma1 (x : Z) : Z := Z.lxor (Z.lxor (rotr 17 x) (rotr 19 x)) (Z.shiftr x 10).

(** The constants are the leading 32 bits of the fractional parts of
    the square roots (initial state) and cube roots (round constants)
    of the first primes. *)
Definition is_prime (n : Z) : bool :=
  forallb (fun d => negb (n mod d =? 0)) (seqZ 2 (n - 2)).

Definition primes (count : nat) : list Z :=
  take count (List.filter is_prime (seqZ 2 400)).

(** The integer cube root of [n < 2 ^ 108], one bit at a time. *)
Definition cbrt (n : Z) : Z :=
  fold_left (fun r b => let r' := r + 2 ^ b in if r' * r' * r' <=? n then r' else r)
            (rev (seqZ 0 36)) 0.

Definition H0 : list Z :=
  Eval vm_compute in map (fun p => w32 (Z.sqrt (p * 2 ^ 64))) (primes 8).

Definition K : list Z :=
  Eval vm_compute in map (fun p => w32 (cbrt (p * 2 ^ 96))) (primes 64).

(** Big-endian bytes of [x], [n] of them. *)
Fixpoint be_bytes (n : nat) (x : Z) : list Z :=
  match n with
  | O => []
  | S n' => be_bytes n' (x / 256) ++ [x mod 256]
  end.

Definition be_word (bs : list Z) : Z := fold_left (fun acc b => acc * 256 + b) bs 0.

Definition pad (msg : list Z) : list Z :=
  let l := Z.of_nat (length msg) in
  msg ++ [128] ++ repeat 0 (Z.to_nat ((55 - l) mod 64)) ++ be_bytes 8 (8 * l).

(** Cut [l] into consecutive chunks of [n] elements, [count] of them. *)
Fixpoint chunks {A} (n count : nat) (l : list A) : list (list A) :=
  match count with
  | O => []
  | S c => take n l :: chunks n c (drop n l)
  end.

(** The message schedule, most recent word first. *)
Definition schedule_step (w : list Z) : list Z :=
  add32 (add32 (sigma1 (nth 1 w 0)) (nth 6 w 0))
        (add32 (sigma0 (nth 14 w 0)) (nth 15 w 0)) :: w.

Definition schedule (block : list Z) : list Z :=
  rev (Nat.iter 48 schedule_step (rev (map be_word (chunks 4 16 block)))).

Definition state := (Z * Z * Z * Z * Z * Z * Z * Z)%type.

Definition round (s : state) (kw : Z * Z) : state :=
  let '(a, b, c, d, e, f, g, h) := s in
  let t1 := add32 (add32 (add32 h (Sigma1 e)) (add32 (Ch e f g) kw.1)) kw.2 in
  let t2 := add32 (Sigma0 a) (Maj a b c) in
  (add32 t1 t2, a, b, c, add32 d t1, e, f, g).

Definition compress (s : state) (block : list Z) : state :=
  let '(a, b, c, d, e, f, g, h) := s in
  let '(a', b', c', d', e', f', g', h') :=
    fold_left round (combine K (schedule block)) s in
  (add32 a a', add32 b b', add32 c c', add32 d d',
   add32 e e', add32 f f', add32 g g', add32 h h').

Definition initial : state :=
  match H0 with
  | [a; b; c; d; e; f; g; h] => (a, b, c, d, e, f, g, h)
  | _ => (0, 0, 0, 0, 0, 0, 0, 0)
  end.

Definition digest (msg : list Z) : list Z :=
  let padded := pad msg in
  let '(a, b, c, d, e, f, g, h) :=
    fold_left compress (chunks 64 (length padded / 64) padded) initial in
  concat (map (be_bytes 4) [a; b; c; d; e; f; g; h]).

Definition hex_digit (n : Z) : ascii :=
  ascii_of_N (Z.to_N (if n <? 10 then 48 + n else 87 + n)).

Definition hexdigest (msg : list Z) : string :=
  string_of_list_ascii
    (concat (map (fun b => [hex_digit (b / 16); hex_digit (b mod 16)]) (digest msg))).

End SHA256.

(** ** Persisted documents *)

(** A stored user, [{"password": <hex digest>, "role": <role>}]. *)
Record user : Type := { password : string; role : string }.

(** A stored feedback, with the keys [save_feedback] writes. The keys
    the program reads with a default ([rating], [visible]) may be
    absent from a document. *)
Record FeedbackRecord : Type := {
  fb_id : string;
  fb_username : string;
  fb_feedback : string;
  fb_rating : option Z;
  fb_sentiment : float * float;
  fb_timestamp : string;
  fb_visible : option bool
}.

(** What is found at a path: no file, a text [json.load] rejects,
    bytes that are not text in the encoding [open(path, "r")] reads
    with (the locale's, UTF-8 unless set otherwise), or a JSON
    document of the expected shape. *)
Inductive file (T : Type) : Type :=
| Missing
| Malformed
| Undecodable
| Stored (doc : T).

Arguments Missing {T}.
Arguments Malformed {T}.
Arguments Undecodable {T}.
Arguments Stored {T} doc.

(** The two files of the program, named after the constants that hold
    their paths. *)
Record disk : Type := {
  USER_DB : file (gmap string user);
  FEEDBACK_DB : file (list FeedbackRecord)
}.

(** [open(path, "r")] *)
Definition open_r {T} (f : file T) : py (file T) :=
  match f with
  | Missing => Raise FileNotFoundError
  | _ => Return f
  end.

(** [json.load(f)] on an open file: [f.read()] decodes the bytes of
    the file, then the text is parsed. *)
Definition json_load {T} (f : file T) : py T :=
  match f with
  | Stored doc => Return doc
  | Undecodable => Raise UnicodeDecodeError
  | _ => Raise JSONDecodeError
  end.

(** ** Authentication functions *)

Definition load_users (d : disk) : py (gmap string user) :=
  try_except
    (f ← open_r (USER_DB d); json_load f)
    is_FileNotFound_or_JSONDecode
    (Return ∅).

Definition save_users (users : gmap string user) (d : disk) : py disk :=
  Return {| USER_DB := Stored users; FEEDBACK_DB := FEEDBACK_DB d |}.

Definition hash_password (password : string) : string :=
  SHA256.hexdigest (encode password).

Definition register_user (username password : string) (d : disk) : py (bool * disk) :=
  users ← load_users d;
  match users !! username with
  | Some _ => Return (false, d)
  | None =>
      let users := <[username := {| password := hash_password password;
                                    role := "user" |}]> users in
      d' ← save_users users d;
      Return (true, d')
  end.

(** A stored user is a dict of two keys, hence true in a condition. *)
Definition authenticate_user (username password : string) (d : disk) : py (option user) :=
  users ← load_users d;
  match users !! username with
  | Some user =>
      let '{| password := stored |} := user in
      if String.eqb stored (hash_password password)
      then Return (Some user)
      else Return None
  | None => Return None
  end.

(** ** Feedback system *)

(** The loop of [load_feedback]: a record without the key [visible]
    gets [visible = True]. *)
Definition fill_visible (f : FeedbackRecord) : FeedbackRecord :=
  match fb_visible f with
  | Some _ => f
  | None =>
      {| fb_id := fb_id f; fb_username := fb_username f; fb_feedback := fb_feedback f;
         fb_rating := fb_rating f; fb_sentiment := fb_sentiment f;
         fb_timestamp := fb_timestamp f; fb_visible := Some true |}
  end.

Definition load_feedback (d : disk) : py (list FeedbackRecord) :=
  try_except
    (f ← open_r (FEEDBACK_DB d);
     feedbacks ← json_load f;
     Return (map fill_visible feedbacks))
    is_FileNotFound_or_JSONDecode
    (Return []).

(** ** [list.sort(key=..., reverse=...)]

    The keys are computed first, one call per element; with [reverse]
    the list is reversed, sorted and reversed again. The sort is stable
    and compares keys with [<] only. *)

Section ListSort.
Context {A K : Type} (lt : K -> K -> bool).

Fixpoint insert_sorted (x : K * A) (l : list (K * A)) : list (K * A) :=
  match l with
  | [] => [x]
  | y :: l' => if lt y.1 x.1 then y :: insert_sorted x l' else x :: y :: l'
  end.

Fixpoint stable_sort (l : list (K * A)) : list (K * A) :=
  match l with
  | [] => []
  | x :: l' => insert_sorted x (stable_sort l')
  end.

Fixpoint with_keys (key : A -> py K) (l : list A) : py (list (K * A)) :=
  match l with
  | [] => Return []
  | x :: l' =>
      k ← key x;
      rest ← with_keys key l';
      Return ((k, x) :: rest)
  end.

Definition list_sort (key : A -> py K) (reverse : bool) (l : list A) : py (list A) :=
  keyed ← with_keys key l;
  let sorted := if reverse then rev (stable_sort (rev keyed)) else stable_sort keyed in
  Return (map snd sorted).
End ListSort.

(** ** UI components *)

Record session_state : Type := { authenticated : bool; username : option string }.

Inductive button : Type := LOGIN | REGISTER.

(** [login_section] once the form is submitted with [pressed]: the
    message shown, the session state and the disk afterwards. *)
Definition login_section (pressed : button) (username password : string)
    (st : session_state) (d : disk) : py (string * session_state * disk) :=
  match pressed with
  | LOGIN =>
      user ← authenticate_user username password d;
      match user with
      | Some _ =>
          Return ("Login Successful!",
                  {| authenticated := true; username := Some username |}, d)
      | None => Return ("Invalid Credentials", st, d)
      end
  | REGISTER =>
      if (8 <=? len password)%nat then
        r ← register_user username password d;
        if r.1 : bool
        then Return ("Registration Successful!", st, r.2)
        else Return ("Username Already Exists", st, r.2)
      else Return ("Password Must Be 8+ Characters", st, d)
  end.

(** [x['rating']] and [x['timestamp']], the sort keys. *)
Definition rating_key (x : FeedbackRecord) : py Z :=
  match fb_rating x with
  | Some r => Return r
  | None => Raise (KeyError "rating")
  end.

Definition timestamp_key (x : FeedbackRecord) : py string := Return (fb_timestamp x).

(** [f.get('rating', 0) >= min_rating and f.get('visible', True)] *)
Definition shown (min_rating : Z) (f : FeedbackRecord) : bool :=
  (min_rating <=? default 0 (fb_rating f))%Z && default true (fb_visible f).

(** The records [review_section] renders, in order, for the choices
    [min_rating] and [sort_order] of its two select boxes. *)
Definition review_section (min_rating : Z) (sort_order : string) (d : disk)
  : py (list FeedbackRecord) :=
  feedbacks ← load_feedback d;
  match feedbacks with
  | [] => Return []
  | _ =>
      let filtered := List.filter (shown min_rating) feedbacks in
      if String.eqb sort_order "Highest Rating"
      then list_sort Z.ltb rating_key true filtered
      else list_sort String.ltb timestamp_key true filtered
  end.

(** ** What the two files hold *)

(** The users and the feedback a disk holds; none when the file is
    missing or is not JSON. *)
Definition stored_users (d : disk) : gmap string user :=
  match USER_DB d with
  | Stored users => users
  | _ => ∅
  end.

Definition stored_feedback (d : disk) : list FeedbackRecord :=
  match FEEDBACK_DB d with
  | Stored feedbacks => feedbacks
  | _ => []
  end.

(** The file is missing or does not hold JSON: it is a text that is
    not JSON, or it is not a text. *)
Definition missing_or_invalid {T} (f : file T) : Prop :=
  f = Missing \/ f = Malformed \/ f = Undecodable.

(** The file, if there is one, is text in the encoding [open] reads
    with. *)
Definition decodable {T} (f : file T) : bool :=
  match f with
  | Undecodable => false
  | _ => true
  end.

(** A record counts as visible unless it says [visible = False], and
    has rating at least [m] when it has a rating [r] with [m <= r]. *)
Definition visible (f : FeedbackRecord) : bool := default true (fb_visible f).

Definition rating_at_least (m : Z) (f : FeedbackRecord) : bool :=
  match fb_rating f with
  | Some r => (m <=? r)%Z
  | None => false
  end.

Definition has_rating (r : Z) (f : FeedbackRecord) : bool :=
  match fb_rating f with
  | Some r' => (r' =? r)%Z
  | None => false
  end.

(** [b] does not rate higher than [a]. *)
Definition rated_no_higher (a b : FeedbackRecord) : Prop :=
  (default 0 (fb_rating b) <= default 0 (fb_rating a))%Z.

(** The records shown for a minimum rating, in the words above. *)
Definition selected (min_rating : Z) (f : FeedbackRecord) : bool :=
  visible f && rating_at_least min_rating f.

(** ** Lists of elements paired with their integer sort keys *)

Definition keyed {A} (k : A -> Z) (l : list A) : list (Z * A) :=
  map (fun x => (k x, x)) l.

Definition key_le {A} (x y : Z * A) : Prop := (x.1 <= y.1)%Z.

Definition key_is {A} (k : Z) (x : Z * A) : bool := (x.1 =? k)%Z.

(** ** A disk with feedback, for examples *)

Definition example_record (id : string) (rating : option Z) (visible : option bool)
  : FeedbackRecord :=
  {| fb_id := id; fb_username := "alice"; fb_feedback := "Great tool!";
     fb_rating := rating; fb_sentiment := (1, 0.75)%float;
     fb_timestamp := "2025-03-01T10:00:00"; fb_visible := visible |}.

Definition example_disk : disk :=
  {| USER_DB := Missing;
     FEEDBACK_DB := Stored [ example_record "a" (Some 3%Z) (Some true);
                             example_record "b" (Some 5%Z) None;
                             example_record "c" (Some 2%Z) (Some true);
                             example_record "d" (Some 3%Z) None;
                             example_record "e" (Some 4%Z) (Some false);
                             example_record "f" None (Some true);
                             example_record "g" (Some 4%Z) (Some true) ] |}.

(** ** Constants of the program *)

Definition ADMIN_USER : string := "admin@quantum.com".

Definition QUANTUM_CONSTANTS : list (string * float) :=
  [ ("Planck Constant", 6.62607015e-34%float);
    ("Reduced Planck Constant", 1.054571817e-34%float);
    ("Bohr Radius", 5.29177210903e-11%float);
    ("Hartree Energy", 4.3597447222071e-18%float);
    ("Rydberg Constant", 10973731.568160%float) ].

(** The energy calculator of [main],
    [QUANTUM_CONSTANTS["Planck Constant"] * frequency * 1e12], for the
    [int] its number input returns. *)
Definition energy (frequency : Z) : py float :=
  h ← match dict_get QUANTUM_CONSTANTS "Planck Constant" with
      | Some h => Return h
      | None => Raise (KeyError "Planck Constant")
      end;
  f ← PyFloat.of_int frequency;
  Return (h * f * 1e12)%float.

(** ** Round trips *)

(** Converting [x] from [a] to [b] and the result back returns [x]. *)
Definition round_trips (category a b : string) (x : float) : bool :=
  match convert_units x a b category with
  | Return (Some y) =>
      match convert_units y b a category with
      | Return (Some z) => PrimFloat.Leibniz.eqb z x
      | _ => false
      end
  | _ => false
  end.

(** The float of the whole number [n]. *)
Definition whole (n : Z) : float := SF2Prim (binary_normalize prec emax n 0 false).

(** ** Saving feedback *)

Section Feedback.
(** [analyze_sentiment]: the polarity and the subjectivity TextBlob
    gives a text. *)
Context (analyze_sentiment : string -> float * float).

(** [s[:n]] *)
Definition slice_to (n : nat) (s : string) : string := substring 0 n s.

(** [save_feedback], for the two readings of the clock it makes:
    [now] is [str(datetime.now())] and [now_iso] is
    [datetime.now().isoformat()]. *)
Definition save_feedback (now now_iso : string) (username feedback : string) (rating : Z)
    (d : disk) : py disk :=
  feedbacks ← try_except
                (f ← open_r (FEEDBACK_DB d); json_load f)
                is_FileNotFound_or_JSONDecode
                (Return []);
  let feedbacks :=
    feedbacks ++ [ {| fb_id := slice_to 8 (SHA256.hexdigest (encode (username ++ now)));
                      fb_username := username;
                      fb_feedback := feedback;
                      fb_rating := Some rating;
                      fb_sentiment := analyze_sentiment feedback;
                      fb_timestamp := now_iso;
                      fb_visible := Some true |} ] in
  Return {| USER_DB := USER_DB d; FEEDBACK_DB := Stored feedbacks |}.
End Feedback.

(** A lowercase hexadecimal digit. *)
Definition is_hex (c : ascii) : bool :=
  let n := N_of_ascii c in
  ((48 <=? n) && (n <=? 57) || (97 <=? n) && (n <=? 102))%N.

(** ** Conversion history *)

(** An entry of [st.session_state.history]. *)
Record entry : Type := { time : string; conversion : string }.

(** The entries [conversion_history] lists, in order:
    [reversed(history[-5:])]; none stands for the notice that there is
    no history. *)
Definition conversion_history (history : list entry) : list entry :=
  rev (drop (length history - 5) history).

(** ** Admin panel *)

(** The loop [users[row['Username']]['role'] = row['Role']] over the
    rows of the edited table. *)
Fixpoint set_roles (rows : list (string * string)) (users : gmap string user)
  : py (gmap string user) :=
  match rows with
  | [] => Return users
  | (name, new_role) :: rows' =>
      match users !! name with
      | Some u => set_roles rows' (<[name := {| password := password u; role := new_role |}]> users)
      | None => Raise (KeyError name)
      end
  end.

(** [st.session_state.username == ADMIN_USER] *)
Definition is_admin (st : session_state) : bool :=
  match username st with
  | Some u => String.eqb u ADMIN_USER
  | None => false
  end.

(** [admin_panel] in a run where the save button is pressed with the
    rows [edited] in the table: the disk afterwards. *)
Definition admin_panel (st : session_state) (edited : list (string * string)) (d : disk)
  : py disk :=
  if is_admin st then
    users ← load_users d;
    users ← set_roles edited users;
    save_users users d
  else Return d.

(** ** The photon energy in exact arithmetic *)

(** Planck's constant, 6.62607015e-34 J s, and the energy in joules of
    a photon of [frequency] terahertz, as rational numbers. *)
Definition planck : Q := 662607015 # (10 ^ 42).

Definition photon_energy (frequency : Z) : Q :=
  (planck * inject_Z frequency * inject_Z (10 ^ 12))%Q.

(** [e] is within the relative distance [2 ** -51] of [q]. *)
Definition close_to (q : Q) (e : float) : bool :=
  Qle_bool (Qabs (PyFloat.value e - q)) (q * (1 # 2 ^ 51)).

(** ** Lists of elements paired with sort keys of any type *)

Definition paired {A K} (k : A -> K) (l : list A) : list (K * A) :=
  map (fun x => (k x, x)) l.

(** The key of [y] is not less than the key of [x]. *)
Definition key_not_after {A K} (lt : K -> K -> bool) (x y : K * A) : Prop :=
  lt y.1 x.1 = false.

(** [a] is not older than [b], by the order of the timestamps as
    strings. *)
Definition not_older (a b : FeedbackRecord) : Prop :=
  String.ltb (fb_timestamp a) (fb_timestamp b) = false.

Definition has_timestamp (t : string) (f : FeedbackRecord) : bool :=
  String.eqb (fb_timestamp f) t.

(** ** What a disk keeps of another *)

(** [d'] keeps what [d] stores: every user, with the same password,
    and every feedback, in the same order, before the ones added
    since. *)
Definition keeps (d d' : disk) : Prop :=
  (forall name u, stored_users d !! name = Some u ->
     exists u', stored_users d' !! name = Some u' /\ password u' = password u)
  /\ exists added, stored_feedback d' = stored_feedback d ++ added.

(** ** Stand-ins for examples *)

(** A sentiment and a float format to run examples with. *)
Definition example_sentiment (feedback : string) : float * float := (0.5, 0.5)%float.

Definition example_format (x : float) : string := "x".

(** ** The application *)

(** What persists between two runs of the script: the session state,
    here with the history beside the two other keys, and the files. *)
Record app_state : Type := {
  session : session_state;
  history : list entry;
  files : disk
}.

(** The session state a new session starts with. *)
Definition initial (d : disk) : app_state :=
  {| session := {| authenticated := false; username := None |};
     history := [];
     files := d |}.

(** What the user does to start a run of the script, with the values
    of the widgets that run reads and its readings of the clock;
    [min_rating] and [sort_order] are the choices in the two select
    boxes of [review_section], which the run calls before
    [feedback_section] and [admin_panel]. *)
Inductive event : Type :=
| AUTH (pressed : button) (username password : string)
| LOGOUT
| CONVERT (unit_type : string) (value : float) (from_unit to_unit : string) (now : string)
| SUBMIT (min_rating : Z) (sort_order : string)
         (feedback : string) (rating : Z) (now now_iso : string)
| SAVE_ROLES (min_rating : Z) (sort_order : string) (edited : list (string * string)).

(** A select box returns one of its options. *)
Definition offers (options : list string) (choice : string) : bool :=
  existsb (String.eqb choice) options.

(** The two select boxes of [review_section]. *)
Definition review_choices (min_rating : Z) (sort_order : string) : bool :=
  ((1 <=? min_rating) && (min_rating <=? 5))%Z
  && offers ["Newest First"; "Highest Rating"] sort_order.

Section Main.
(** TextBlob's sentiment, the text of a float under the format
    specifications [{value}] and [{result:.6e}], and whether
    [datetime.fromisoformat] accepts a text. *)
Context (analyze_sentiment : string -> float * float).
Context (format_value format_6e : float -> string).
Context (fromisoformat : string -> bool).

(** Whether [review_section] gets to its end: it raises when its sort
    does, and when it renders a record whose timestamp
    [datetime.fromisoformat] rejects. *)
Definition reviews_render (min_rating : Z) (sort_order : string) (d : disk) : bool :=
  match review_section min_rating sort_order d with
  | Return filtered => forallb (fun f => fromisoformat (fb_timestamp f)) filtered
  | Raise _ => false
  end.

(** [feedback_section] once its form is submitted; [user] is
    [st.session_state.username], read in an authenticated session,
    where it is a string. *)
Definition feedback_section (st : session_state) (user : string)
    (feedback : string) (rating : Z) (now now_iso : string) (d : disk)
  : py (string * disk) :=
  if authenticated st then
    d' ← save_feedback analyze_sentiment now now_iso user feedback rating d;
    Return ("Feedback Submitted! üåü", d')
  else Return ("Please Login to Submit Feedback", d).

(** The convert button of [main]: the message shown and the history
    afterwards. *)
Definition convert_button (unit_type : string) (value : float) (from_unit to_unit : string)
    (now : string) (history : list entry) : py (string * list entry) :=
  result ← convert_units value from_unit to_unit unit_type;
  match result with
  | Some result =>
      let conversion_str :=
        (format_value value ++ " " ++ from_unit ++ " = "
         ++ format_6e result ++ " " ++ to_unit)%string in
      Return (conversion_str, history ++ [{| time := now; conversion := conversion_str |}])
  | None => Return ("Invalid Conversion", history)
  end.

(** The state a run leaves when its handler returns [r], and when an
    exception ends it there: no handler raises after it has changed
    the session state or a file. *)
Definition leaves {A} (r : py A) (s : app_state) (changed : A -> app_state) : app_state :=
  match r with
  | Return a => changed a
  | Raise _ => s
  end.

(** One run of [main] for the event [ev]: the state it leaves. There
    is no result when the page of the state does not offer the event:
    the form of [login_section] is shown to a session that is not
    authenticated and the rest to one that is, the select boxes list
    their options, the value is at least 0.0 and the rating is from 1
    to 5; nor for a feedback in an authenticated session without
    username. The form is still on the page of a session it has just
    logged in, where the run after a submission does not call
    [login_section] any more. The converter comes first on the page,
    then the reviews, the feedback form and the admin panel: a run in
    which [review_section] raises ends before the last two. *)
Definition main (ev : event) (s : app_state) : option app_state :=
  let st := session s in
  if negb (authenticated st) then
    match ev with
    | AUTH pressed username password =>
        Some (leaves (login_section pressed username password st (files s)) s
                (fun r => {| session := r.1.2; history := history s; files := r.2 |}))
    | _ => None
    end
  else
    match ev with
    | AUTH _ _ _ => Some s
    | LOGOUT =>
        Some {| session := {| authenticated := false; username := None |};
                history := history s;
                files := files s |}
    | CONVERT unit_type value from_unit to_unit now =>
        if offers categories unit_type && (0 <=? value)%float
           && offers (units unit_type) from_unit && offers (units unit_type) to_unit
        then
          Some (leaves (convert_button unit_type value from_unit to_unit now (history s)) s
                  (fun r => {| session := st; history := r.2; files := files s |}))
        else None
    | SUBMIT min_rating sort_order feedback rating now now_iso =>
        if review_choices min_rating sort_order && ((1 <=? rating) && (rating <=? 5))%Z then
          user ← username st;
          Some (if reviews_render min_rating sort_order (files s) then
                  leaves (feedback_section st user feedback rating now now_iso (files s)) s
                    (fun r => {| session := st; history := history s; files := r.2 |})
                else s)
        else None
    | SAVE_ROLES min_rating sort_order edited =>
        if review_choices min_rating sort_order && is_admin st then
          Some (if reviews_render min_rating sort_order (files s) then
                  leaves (admin_panel st edited (files s)) s
                    (fun d' => {| session := st; history := history s; files := d' |})
                else s)
        else None
    end.

Fixpoint run (evs : list event) (s : app_state) : option app_state :=
  match evs with
  | [] => Some s
  | ev :: evs' =>
      match main ev s with
      | Some s' => run evs' s'
      | None => None
      end
  end.
End Main.

(** A session is authenticated exactly when it has a username, and
    that username is stored. *)
Definition session_ok (s : app_state) : Prop :=
  (authenticated (session s) = true <-> is_Some (username (session s)))
  /\ forall user, username (session s) = Some user ->
                  is_Some (stored_users (files s) !! user).

Definition is_convert (ev : event) : bool :=
  match ev with
  | CONVERT _ _ _ _ _ => true
  | _ => false
  end.

(** A format check to run examples with: a date, [T] and a time. *)
Definition example_fromisoformat (text : string) : bool :=
  match index 0 "T" text with
  | Some 10 => true
  | _ => false
  end.

(** The timestamp a run reads from the clock, if it stores one, is
    one [accepts] accepts. *)
Definition clock_accepted (accepts : string -> bool) (ev : event) : bool :=
  match ev with
  | SUBMIT _ _ _ _ _ now_iso => accepts now_iso
  | _ => true
  end.

(** * Properties *)

(** ** Registry lookups *)

Lemma dict_get_None {V} (items : list (string * V)) k :
  ~ In k (keys items) -> dict_get items k = None.
Proof.
  induction items as [|[k' v] items IH]; simpl; [done|].
  intros Hk. destruct (String.eqb_spec k' k) as [->|_]; [tauto|].
  apply IH. tauto.
Qed.

Ltac registry_in H :=
  cbn [getitem dict_get unit_conversions mbind py_bind as_float keys map fst] in H.

(** Case analysis on the string comparisons a lookup in [H] makes. *)
Ltac split_eqb_in H :=
  registry_in H;
  repeat match type of H with
  | context [String.eqb ?a ?b] =>
      destruct (String.eqb_spec a b); [subst | ]; registry_in H
  end.

Ltac convert_step :=
  cbn [getitem contains dict_get unit_conversions mbind py_bind
       try_except is_KeyError call].

(** The same on the comparisons [convert_units] makes in the goal. *)
Ltac split_eqb :=
  repeat (convert_step;
          match goal with
          | |- context [String.eqb ?a ?b] =>
              destruct (String.eqb_spec a b); [subst | ]; try congruence
          end).

(** ** Conversion *)

Lemma convert_units_linear value category from_unit to_unit f_from f_to :
  factor category from_unit = Some f_from ->
  factor category to_unit = Some f_to ->
  convert_units value from_unit to_unit category
  = Return (Some (value * f_to / f_from)%float).
Proof.
  unfold factor. intros Hfrom Hto.
  split_eqb_in Hfrom; try discriminate.
  all: split_eqb_in Hto; try discriminate.
  all: vm_compute in Hfrom, Hto; injection Hfrom as <-; injection Hto as <-.
  all: vm_compute; reflexivity.
Qed.

(** An unknown unit of a known category gives [None], in the linear
    categories and in Temperature alike. *)
Lemma convert_units_unknown_unit value from_unit to_unit category :
  In category categories ->
  ~ In from_unit (units category) \/ ~ In to_unit (units category) ->
  convert_units value from_unit to_unit category = Return None.
Proof.
  intros Hc Hu. vm_compute in Hc.
  repeat (destruct Hc as [<-|Hc]; [vm_compute in Hu|]); [..|done].
  all: unfold convert_units; split_eqb; try reflexivity; exfalso; tauto.
Qed.

(** A unit of a linear category carries a factor. *)
Lemma linear_unit_factor category unit :
  In category categories -> category <> "Temperature" ->
  In unit (units category) ->
  exists f, factor category unit = Some f.
Proof.
  intros Hc Hlinear Hu. vm_compute in Hc.
  repeat (destruct Hc as [<-|Hc]; [vm_compute in Hu|]); [..|done].
  all: try congruence.
  all: repeat (destruct Hu as [<-|Hu]; [|]); try done.
  all: eexists; vm_compute; reflexivity.
Qed.

(** C1. [convert_units(100, "J", "eV", "Energy")] is
    [100 * 1.60218e-19 / 1], about 1.6e-17 and not about 6.2415e20;
    that value is what the opposite direction, eV to J, returns. *)
Theorem convert_100_J_eV :
  convert_units 100 "J" "eV" "Energy" = Return (Some 1.6021799999999999e-17%float)
  /\ convert_units 100 "eV" "J" "Energy" = Return (Some 6.2414959617521134e+20%float).
Proof. split; vm_compute; reflexivity. Qed.

(** C2. A category that is not a key of the registry makes
    [convert_units] raise [KeyError]: only "Temperature" is looked up
    under [try], and it is a key. *)
Theorem convert_units_unknown_category value from_unit to_unit category :
  ~ In category categories ->
  convert_units value from_unit to_unit category = Raise (KeyError category).
Proof.
  intros Hc. unfold convert_units.
  destruct (String.eqb_spec category "Temperature") as [->|_].
  - exfalso. apply Hc. vm_compute. tauto.
  - unfold categories, unit_conversions in Hc.
    unfold unit_conversions at 1. cbn [getitem mbind py_bind].
    rewrite (dict_get_None _ _ Hc). reflexivity.
Qed.

Lemma convert_units_unknown_category_witness :
  ~ In "Volume" categories
  /\ convert_units 1 "m" "m" "Volume" = Raise (KeyError "Volume").
Proof.
  assert (H : ~ In "Volume" categories) by (vm_compute; intuition congruence).
  split; [exact H | exact (convert_units_unknown_category 1 "m" "m" "Volume" H)].
Defined.

(** ** Rounding *)

Lemma round_decimal x ndigits r :
  PyFloat.round x ndigits = Return r ->
  PyFloat.decimal ndigits r \/ (r = x /\ PyFloat.finite x = false).
Proof.
  unfold PyFloat.round, PyFloat.finite, PyFloat.decimal.
  destruct (Prim2SF x) as [s|s| |s m e] eqn:Hx; intros Hr.
  - left. exists s, 0%Z. injection Hr as <-.
    rewrite <- (SF2Prim_Prim2SF x), Hx. reflexivity.
  - right. injection Hr as <-. done.
  - right. injection Hr as <-. done.
  - left. cbv zeta in Hr.
    match type of Hr with
    | context [PyFloat.nearest s ?k ?d] =>
        exists s, k; destruct (PyFloat.nearest s k d); congruence
    end.
Qed.

(** C3, amended. A successful Temperature conversion returns
    [round(raw, 6)] for the unrounded result
    [raw = from_base(to_base(value))] of the two units' functions, hence
    the double nearest to a multiple of 1e-6 (or [raw] itself when it is
    infinite or a nan). A successful conversion in any other category
    returns the quotient [value * factor(to_unit) / factor(from_unit)]
    as the float division leaves it. *)
Theorem conversion_result_rounding :
  (forall value from_unit to_unit r,
      convert_units value from_unit to_unit "Temperature" = Return (Some r) ->
      exists to_base from_base,
        scale from_unit "to_base" = Some to_base
        /\ scale to_unit "from_base" = Some from_base
        /\ PyFloat.round (from_base (to_base value)) 6 = Return r
        /\ (PyFloat.decimal 6 r \/ PyFloat.finite r = false))
  /\ (forall value from_unit to_unit category r,
         category <> "Temperature" ->
         convert_units value from_unit to_unit category = Return (Some r) ->
         exists f_from f_to,
           factor category from_unit = Some f_from
           /\ factor category to_unit = Some f_to
           /\ r = (value * f_to / f_from)%float).
Proof.
  split.
  - intros value from_unit to_unit r.
    unfold convert_units. change ("Temperature" =? "Temperature")%string with true.
    cbv iota. intros H.
    assert (Hround : forall raw,
               try_except (r0 ← PyFloat.round raw 6; Return (Some r0))
                          is_KeyError (Return None) = Return (Some r) ->
               PyFloat.round raw 6 = Return r
               /\ (PyFloat.decimal 6 r \/ PyFloat.finite r = false)).
    { intros raw Hraw. destruct (PyFloat.round raw 6) as [r0|e] eqn:Hr0.
      - cbn in Hraw. injection Hraw as ->. split; [done|].
        destruct (round_decimal _ _ _ Hr0) as [?|[-> ?]]; auto.
      - destruct e; discriminate. }
    revert H. split_eqb; try discriminate; intros H; apply Hround in H.
    all: eexists _, _; (split; [reflexivity | split; [reflexivity | exact H]]).
  - intros value from_unit to_unit category r Hlinear.
    unfold convert_units.
    destruct (String.eqb_spec category "Temperature") as [->|_]; [done|].
    split_eqb; try discriminate.
    all: intros H; vm_compute in H; injection H as <-.
    all: eexists _, _; split; [vm_compute; reflexivity|];
         (split; [vm_compute; reflexivity|]); reflexivity.
Qed.

Lemma conversion_result_rounding_witness :
  (exists to_base from_base,
      scale "C" "to_base" = Some to_base
      /\ scale "F" "from_base" = Some from_base
      /\ PyFloat.round (from_base (to_base 100%float)) 6 = Return 212%float
      /\ (PyFloat.decimal 6 212 \/ PyFloat.finite 212 = false))
  /\ (exists f_from f_to,
         factor "Length" "feet" = Some f_from
         /\ factor "Length" "m" = Some f_to
         /\ 3.280839895013123%float = (1 * f_to / f_from)%float).
Proof.
  split.
  - apply (proj1 conversion_result_rounding 100%float "C" "F" 212%float).
    vm_compute. reflexivity.
  - apply (proj2 conversion_result_rounding 1%float "feet" "m" "Length").
    + discriminate.
    + vm_compute. reflexivity.
Defined.

(** C3, as stated, fails on a linear conversion: one foot in meters is
    returned as [1 * 1 / 0.3048] with all its digits, which is neither
    [round] of the quotient to 6 digits nor left unchanged by it. *)
Lemma linear_result_not_rounded :
  convert_units 1 "feet" "m" "Length" = Return (Some 3.280839895013123%float)
  /\ factor "Length" "feet" = Some 0.3048%float
  /\ factor "Length" "m" = Some 1%float
  /\ PyFloat.round (1 * 1 / 0.3048) 6 = Return 3.28084%float
  /\ PyFloat.round 3.280839895013123 6 = Return 3.28084%float
  /\ (3.280839895013123 =? 3.28084)%float = false.
Proof. repeat split; vm_compute; reflexivity. Qed.

(** C4. For every linear category and every two units of it, the
    result is [value * factor(to_unit) / factor(from_unit)], computed
    in floats, for the factors the registry gives the two units. *)
Theorem convert_units_linear_formula value category from_unit to_unit :
  In category categories -> category <> "Temperature" ->
  In from_unit (units category) -> In to_unit (units category) ->
  exists f_from f_to,
    factor category from_unit = Some f_from
    /\ factor category to_unit = Some f_to
    /\ convert_units value from_unit to_unit category
       = Return (Some (value * f_to / f_from)%float).
Proof.
  intros Hc Hlinear Hfrom Hto. vm_compute in Hc.
  repeat (destruct Hc as [<-|Hc]; [vm_compute in Hfrom, Hto|]); [..|done].
  all: try congruence.
  all: repeat (destruct Hfrom as [<-|Hfrom]; [|]); [..|done].
  all: repeat (destruct Hto as [<-|Hto]; [|]); try done.
  all: eexists _, _; split; [vm_compute; reflexivity|];
       (split; [vm_compute; reflexivity|]); vm_compute; reflexivity.
Qed.

Lemma convert_units_linear_formula_witness :
  exists f_from f_to,
    factor "Mass" "pounds" = Some f_from
    /\ factor "Mass" "kg" = Some f_to
    /\ convert_units 150 "pounds" "kg" "Mass"
       = Return (Some (150 * f_to / f_from)%float).
Proof.
  apply (convert_units_linear_formula 150 "Mass" "pounds" "kg").
  - vm_compute. tauto.
  - discriminate.
  - vm_compute. tauto.
  - vm_compute. tauto.
Defined.

(** ** Rounding error of float multiplication and division

    [SFmul] and [SFdiv] on two normal doubles, when the result is
    normal too: it is within [2 ** -53] of the exact product or
    quotient, relatively. *)

Module Rounding.
Import PyFloat.
#[local] Open Scope Z_scope.

(** *** Number of binary digits *)
Lemma digits2_pos_bounds (m : positive) :
  2 ^ (Zpos (digits2_pos m) - 1) <= Zpos m < 2 ^ Zpos (digits2_pos m).
Proof.
  induction m as [m IH|m IH|]; cbn [digits2_pos]; [..|cbn; lia].
  all: rewrite Pos2Z.inj_succ.
  all: replace (Z.succ (Zpos (digits2_pos m)) - 1) with (Z.succ (Zpos (digits2_pos m) - 1)) by lia.
  all: rewrite !Z.pow_succ_r by lia.
  all: revert IH; generalize (2 ^ (Zpos (digits2_pos m) - 1)) (2 ^ Zpos (digits2_pos m)); lia.
Qed.

Lemma pow2_lt_inv a b : 2 ^ a < 2 ^ b -> a < b.
Proof.
  intros H. destruct (Z.le_gt_cases b a) as [Hle|]; [exfalso|done].
  destruct (Z.le_gt_cases 0 b).
  - assert (2 ^ b <= 2 ^ a) by (apply Z.pow_le_mono_r; lia). lia.
  - rewrite (Z.pow_neg_r 2 b) in H by lia.
    pose proof (Z.pow_nonneg 2 a). lia.
Qed.

Lemma Zdigits2_unique (m : positive) (d : Z) :
  2 ^ (d - 1) <= Zpos m < 2 ^ d -> Zpos (digits2_pos m) = d.
Proof.
  intros [Hlo Hhi]. pose proof (digits2_pos_bounds m) as [Hlo' Hhi'].
  assert (d - 1 < Zpos (digits2_pos m)) by (apply pow2_lt_inv; lia).
  assert (Zpos (digits2_pos m) - 1 < d) by (apply pow2_lt_inv; lia).
  lia.
Qed.

(** *** Right shifts *)
Lemma iter_pos_nat {A} (f : A -> A) p x :
  SpecFloat.iter_pos f p x = Nat.iter (Pos.to_nat p) f x.
Proof.
  revert x. induction p as [p IH|p IH|]; intros x; cbn [SpecFloat.iter_pos]; [| |done].
  - rewrite !IH, Pos2Nat.inj_xI.
    replace (S (2 * Pos.to_nat p)) with (Pos.to_nat p + (Pos.to_nat p + 1))%nat by lia.
    by rewrite !Nat.iter_add.
  - rewrite !IH, Pos2Nat.inj_xO.
    replace (2 * Pos.to_nat p)%nat with (Pos.to_nat p + Pos.to_nat p)%nat by lia.
    by rewrite Nat.iter_add.
Qed.

Lemma shr_nat mrs e n :
  0 <= n -> shr mrs e n = (Nat.iter (Z.to_nat n) shr_1 mrs, e + n).
Proof.
  intros Hn. destruct n as [|p|p]; [by rewrite Z.add_0_r | | lia].
  cbn [shr]. by rewrite iter_pos_nat.
Qed.

Lemma shr_1_nonneg m r s :
  0 <= m ->
  shr_1 {| shr_m := m; shr_r := r; shr_s := s |}
  = {| shr_m := m / 2; shr_r := Z.odd m; shr_s := r || s |}.
Proof.
  intros Hm. rewrite <- Z.div2_div.
  destruct m as [|[p|p|]|]; try lia; reflexivity.
Qed.

Lemma located_shr_1 P U mrs :
  0 < U -> 0 <= shr_m mrs -> located P U mrs -> located P (2 * U) (shr_1 mrs).
Proof.
  intros HU Hm (rest & HP & Hrest & Hr & Hs). destruct mrs as [m r s]. cbn in * |-.
  rewrite shr_1_nonneg by done. unfold located; cbn.
  pose proof (Z.div_mod m 2 ltac:(lia)) as Hdm.
  pose proof (Z.mod_pos_bound m 2 ltac:(lia)) as Hb.
  rewrite Zodd_mod.
  exists (rest + (m mod 2) * U). destruct (Z.eqb_spec (m mod 2) 1) as [H1|H1].
  - rewrite H1 in *. repeat split; try nia.
    intros Hrs. apply orb_false_elim in Hrs as [-> ->]. right.
    destruct (Hs eq_refl); nia.
  - assert (H0 : m mod 2 = 0) by lia. rewrite H0 in *. repeat split; try nia.
    intros Hrs. apply orb_false_elim in Hrs as [-> ->]. left.
    destruct (Hs eq_refl); nia.
Qed.

Lemma shr_1_m mrs : 0 <= shr_m mrs -> shr_m (shr_1 mrs) = shr_m mrs / 2.
Proof. destruct mrs as [m r s]. cbn [shr_m]. intros Hm. by rewrite shr_1_nonneg. Qed.

Lemma located_iter P U mrs (k : nat) :
  0 < U -> 0 <= shr_m mrs -> located P U mrs ->
  located P (U * 2 ^ Z.of_nat k) (Nat.iter k shr_1 mrs)
  /\ shr_m (Nat.iter k shr_1 mrs) = shr_m mrs / 2 ^ Z.of_nat k.
Proof.
  intros HU Hm Hloc. induction k as [|k [IH1 IH2]].
  - cbn. rewrite Z.mul_1_r, Z.div_1_r. done.
  - rewrite Nat.iter_succ, Nat2Z.inj_succ, Z.pow_succ_r by lia.
    assert (0 <= shr_m (Nat.iter k shr_1 mrs)).
    { rewrite IH2. apply Z.div_pos; [lia|]. apply Z.pow_pos_nonneg; lia. }
    split.
    + replace (U * (2 * 2 ^ Z.of_nat k)) with (2 * (U * 2 ^ Z.of_nat k)) by lia.
      apply located_shr_1; [|done..].
      apply Z.mul_pos_pos; [lia|]. apply Z.pow_pos_nonneg; lia.
    + pose proof (Z.pow_pos_nonneg 2 (Z.of_nat k)).
      rewrite shr_1_m, IH2 by done. rewrite Z.div_div by lia.
      f_equal. lia.
Qed.

(** Rounding to nearest even moves by at most half of [U]. *)
Lemma round_nearest_even_located P U mrs :
  0 < U -> located P U mrs ->
  shr_m mrs <= round_nearest_even (shr_m mrs) (loc_of_shr_record mrs) <= shr_m mrs + 1
  /\ 2 * Z.abs (round_nearest_even (shr_m mrs) (loc_of_shr_record mrs) * U - P) <= U.
Proof.
  intros HU (rest & HP & Hrest & Hr & Hs). destruct mrs as [m [|] [|]]; cbn in *.
  - nia.
  - destruct (Hs eq_refl) as [?|?]; [lia|]. destruct (Z.even m); nia.
  - nia.
  - nia.
Qed.

Lemma fexp_normal e : -1074 <= e - 53 -> fexp prec emax e = e - 53.
Proof. unfold fexp, SpecFloat.emin, prec, emax. lia. Qed.

Lemma shr_fexp_normal (m : positive) e l n :
  Zpos (digits2_pos m) = 53 + n -> 0 <= n -> -1074 <= e + n ->
  shr_fexp prec emax (Zpos m) e l
  = (Nat.iter (Z.to_nat n) shr_1 (shr_record_of_loc (Zpos m) l), e + n).
Proof.
  intros Hd Hn He. unfold shr_fexp. cbn [Zdigits2]. rewrite Hd.
  rewrite fexp_normal by lia.
  replace (53 + n + e - 53 - e) with n by lia. by apply shr_nat.
Qed.

Lemma shr_record_of_loc_m m l : shr_m (shr_record_of_loc m l) = m.
Proof. by destruct l as [|[]]. Qed.

Lemma binary_round_aux_located s (mx : positive) ex lx P U n :
  0 < U ->
  located P U (shr_record_of_loc (Zpos mx) lx) ->
  Zpos (digits2_pos mx) = 53 + n -> 0 <= n ->
  -1074 <= ex + n -> ex + n + 1 <= 971 ->
  exists m e,
    binary_round_aux prec emax s (Zpos mx) ex lx = S754_finite s m e
    /\ Zpos (digits2_pos m) = 53
    /\ ex + n <= e <= ex + n + 1
    /\ 2 ^ 53 * Z.abs (Zpos m * U * 2 ^ (e - ex) - P) <= P.
Proof.
  intros HU Hloc Hd Hn Hlo Hhi.
  pose proof (digits2_pos_bounds mx) as Hmx. rewrite Hd in Hmx.
  replace (53 + n - 1) with (n + 52) in Hmx by lia.
  rewrite (Z.add_comm 53 n) in Hmx.
  rewrite !Z.pow_add_r in Hmx by lia.
  assert (Hpn : 0 < 2 ^ n) by (apply Z.pow_pos_nonneg; lia).
  unfold binary_round_aux. rewrite (shr_fexp_normal mx ex lx n) by done.
  destruct (located_iter P U (shr_record_of_loc (Zpos mx) lx) (Z.to_nat n) HU)
    as [Hloc' Hm']; [by rewrite shr_record_of_loc_m | done |].
  rewrite Z2Nat.id in Hloc', Hm' by done. rewrite shr_record_of_loc_m in Hm'.
  set (mrs := Nat.iter (Z.to_nat n) shr_1 (shr_record_of_loc (Zpos mx) lx)) in *.
  assert (Hm1 : 2 ^ 52 <= shr_m mrs < 2 ^ 53).
  { rewrite Hm'. split.
    - apply Z.div_le_lower_bound; lia.
    - apply Z.div_lt_upper_bound; lia. }
  assert (HU' : 0 < U * 2 ^ n) by lia.
  destruct (round_nearest_even_located P (U * 2 ^ n) mrs HU' Hloc') as [HR Herr].
  assert (HP : 2 ^ 52 * (U * 2 ^ n) <= P).
  { destruct Hloc' as (rest & -> & Hrest & _). nia. }
  set (R := round_nearest_even (shr_m mrs) (loc_of_shr_record mrs)) in *.
  destruct R as [|r|r] eqn:HeqR; [lia| |lia].
  destruct (Z.eq_dec (Zpos r) (2 ^ 53)) as [Htop|Htop].
  - (* the mantissa rounds up to a power of two *)
    change (2 ^ 53) with 9007199254740992 in *. change (2 ^ 52) with 4503599627370496 in *.
    destruct r as [p|p|]; [lia| |lia].
    assert (Hp : Zpos p = 4503599627370496) by lia.
    exists p, (ex + n + 1).
    assert (Hdp : Zpos (digits2_pos p) = 53).
    { apply Zdigits2_unique. rewrite Hp. cbn. lia. }
    unfold shr_fexp. cbn [Zdigits2 digits2_pos]. rewrite Pos2Z.inj_succ, Hdp.
    rewrite fexp_normal by lia.
    replace (Z.succ 53 + (ex + n) - 53 - (ex + n)) with 1 by lia.
    cbn [shr shr_record_of_loc SpecFloat.iter_pos shr_1 shr_m].
    destruct (Z.leb_spec (ex + n + 1) (emax - prec)) as [_|Hbad];
      [|unfold emax, prec in Hbad; lia].
    split; [reflexivity|]. split; [reflexivity|]. split; [lia|].
    replace (ex + n + 1 - ex) with (n + 1) by lia.
    rewrite Z.pow_add_r by lia. change (2 ^ 1) with 2.
    nia.
  - exists r, (ex + n).
    assert (Hdr : Zpos (digits2_pos r) = 53) by (apply Zdigits2_unique; lia).
    unfold shr_fexp. cbn [Zdigits2]. rewrite Hdr, fexp_normal by lia.
    replace (53 + (ex + n) - 53 - (ex + n)) with 0 by lia.
    cbn [shr shr_record_of_loc shr_m].
    destruct (Z.leb_spec (ex + n) (emax - prec)) as [_|Hbad];
      [|unfold emax, prec in Hbad; lia].
    split; [reflexivity|]. split; [reflexivity|]. split; [lia|].
    replace (ex + n - ex) with n by lia.
    change (2 ^ 53) with 9007199254740992 in *. change (2 ^ 52) with 4503599627370496 in *.
    nia.
Qed.

Lemma located_exact P : located P 1 (shr_record_of_loc P loc_Exact).
Proof. exists 0. cbn. repeat split; first [lia | auto]. Qed.

Lemma new_location_located q r U :
  0 < U -> 0 <= r < U ->
  located (q * U + r) U (shr_record_of_loc q (new_location U r)).
Proof.
  intros HU Hr. unfold new_location, new_location_even, new_location_odd.
  destruct (Z.even U) eqn:Heven.
  - destruct (Z.eqb_spec r 0) as [->|Hr0].
    + exists 0. cbn. repeat split; first [lia | auto].
    + exists r. destruct (Z.compare_spec (2 * r) U); cbn; repeat split; first [lia | auto | discriminate].
  - assert (Hodd : U mod 2 = 1).
    { rewrite <- Z.negb_odd in Heven. apply negb_false_iff in Heven.
      rewrite Zodd_mod in Heven. lia. }
    pose proof (Z.div_mod U 2 ltac:(lia)) as HdU.
    destruct (Z.eqb_spec r 0) as [->|Hr0].
    + exists 0. cbn. repeat split; first [lia | auto].
    + exists r. destruct (Z.compare_spec (2 * r + 1) U); cbn; repeat split; first [lia | auto | discriminate].
Qed.

(** The product of two 53-bit mantissas, rounded. *)
Lemma SFmul_normal sx mx ex sy my ey :
  Zpos (digits2_pos mx) = 53 -> Zpos (digits2_pos my) = 53 ->
  -1074 <= ex + ey + 52 -> ex + ey + 54 <= 971 ->
  exists m e,
    SFmul prec emax (S754_finite sx mx ex) (S754_finite sy my ey)
    = S754_finite (xorb sx sy) m e
    /\ Zpos (digits2_pos m) = 53
    /\ ex + ey + 52 <= e <= ex + ey + 54
    /\ 2 ^ 53 * Z.abs (Zpos m * 2 ^ (e - (ex + ey)) - Zpos mx * Zpos my) <= Zpos mx * Zpos my.
Proof.
  intros Hdx Hdy Hlo Hhi. cbn [SFmul].
  pose proof (digits2_pos_bounds mx) as Hmx. rewrite Hdx in Hmx.
  pose proof (digits2_pos_bounds my) as Hmy. rewrite Hdy in Hmy.
  pose proof (digits2_pos_bounds (mx * my)) as Hp. rewrite Pos2Z.inj_mul in Hp.
  change (2 ^ (53 - 1)) with (2 ^ 52) in *.
  set (d := Zpos (digits2_pos (mx * my))) in *.
  assert (Hd : 104 < d < 107).
  { split; apply pow2_lt_inv.
    - change (2 ^ 104) with (2 ^ 52 * 2 ^ 52). nia.
    - change (2 ^ 107) with (2 * (2 ^ 53 * 2 ^ 53)).
      change (d - 1) with (Z.pred d) in Hp. 
      assert (2 ^ d = 2 * 2 ^ (d - 1)) as Hdd.
      { rewrite <- Z.pow_succ_r by lia. f_equal. lia. }
      nia. }
  destruct (binary_round_aux_located (xorb sx sy) (mx * my) (ex + ey) loc_Exact
              (Zpos (mx * my)) 1 (d - 53)) as (m & e & Hres & Hdm & He & Herr);
    [lia | apply located_exact | fold d; lia | lia | lia | lia |].
  exists m, e. split; [exact Hres|]. split; [exact Hdm|]. split; [lia|].
  rewrite Z.mul_1_r, Pos2Z.inj_mul in Herr. exact Herr.
Qed.

(** The quotient of two 53-bit mantissas, rounded. *)
Lemma SFdiv_normal sx mx ex sy my ey :
  Zpos (digits2_pos mx) = 53 -> Zpos (digits2_pos my) = 53 ->
  -1074 <= ex - ey - 53 -> ex - ey - 51 <= 971 ->
  exists m e,
    SFdiv prec emax (S754_finite sx mx ex) (S754_finite sy my ey)
    = S754_finite (xorb sx sy) m e
    /\ Zpos (digits2_pos m) = 53
    /\ ex - ey - 53 <= e <= ex - ey - 51
    /\ 2 ^ 53 * Z.abs (Zpos m * Zpos my * 2 ^ (e - (ex - ey - 53)) - Zpos mx * 2 ^ 53)
       <= Zpos mx * 2 ^ 53.
Proof.
  intros Hdx Hdy Hlo Hhi. cbn [SFdiv]. unfold SFdiv_core_binary. cbn [Zdigits2].
  rewrite Hdx, Hdy.
  replace (53 + ex - (53 + ey)) with (ex - ey) by lia.
  rewrite fexp_normal by lia.
  rewrite Z.min_l by lia.
  replace (ex - ey - (ex - ey - 53)) with 53 by lia.
  rewrite Z.shiftl_mul_pow2 by lia.
  pose proof (digits2_pos_bounds mx) as Hmx. rewrite Hdx in Hmx.
  pose proof (digits2_pos_bounds my) as Hmy. rewrite Hdy in Hmy.
  change (2 ^ (53 - 1)) with (2 ^ 52) in *.
  pose proof (Z_div_mod (Zpos mx * 2 ^ 53) (Zpos my) ltac:(lia)) as Hdiv.
  destruct (Z.div_eucl (Zpos mx * 2 ^ 53) (Zpos my)) as [q r].
  destruct Hdiv as [Hq Hr].
  change (2 ^ 53) with 9007199254740992 in *. change (2 ^ 52) with 4503599627370496 in *.
  assert (Hqb : 4503599627370496 <= q < 4 * 4503599627370496) by nia.
  destruct q as [|q|q]; [lia| |lia].
  pose proof (digits2_pos_bounds q) as Hdq.
  set (d := Zpos (digits2_pos q)) in *.
  assert (Hd : 52 < d < 55).
  { split; apply pow2_lt_inv.
    - change (2 ^ 52) with 4503599627370496. lia.
    - change (2 ^ 55) with (8 * 4503599627370496).
      assert (2 ^ d = 2 * 2 ^ (d - 1)) as Hdd.
      { rewrite <- Z.pow_succ_r by lia. f_equal. lia. }
      lia. }
  destruct (binary_round_aux_located (xorb sx sy) q (ex - ey - 53)
              (new_location (Zpos my) r)
              (Zpos mx * 9007199254740992) (Zpos my) (d - 53))
    as (m & e & Hres & Hdm & He & Herr);
    [lia | | fold d; lia | lia | lia | lia |].
  { rewrite Hq, (Z.mul_comm (Zpos my)). by apply new_location_located. }
  exists m, e. split; [exact Hres|]. split; [exact Hdm|]. split; [lia|]. exact Herr.
Qed.

Lemma pow2_pos e : (0 < pow2 e)%Q.
Proof. apply Qpower_0_lt. reflexivity. Qed.

Lemma pow2_add a b : (pow2 (a + b) == pow2 a * pow2 b)%Q.
Proof. apply Qpower_plus. discriminate. Qed.

Lemma pow2_inject k : 0 <= k -> (inject_Z (2 ^ k) == pow2 k)%Q.
Proof. intros Hk. by rewrite Zpower_Qpower. Qed.

(** An integer bound on the rounding error, read on values scaled by
    [T]. *)
Lemma scaled_error (a p : Z) (T : Q) :
  (0 < T)%Q -> 2 ^ 53 * Z.abs (a - p) <= p ->
  ((1 - ulp_half) * (inject_Z p * T) <= inject_Z a * T
   /\ inject_Z a * T <= (1 + ulp_half) * (inject_Z p * T))%Q.
Proof.
  intros HT Herr. change (2 ^ 53) with 9007199254740992 in Herr.
  assert (H1 : 9007199254740992 * (a - p) <= p) by lia.
  assert (H2 : 9007199254740992 * (p - a) <= p) by lia.
  rewrite Zle_Qle in H1, H2.
  unfold Z.sub in H1, H2. rewrite inject_Z_mult, inject_Z_plus, inject_Z_opp in H1, H2.
  set (A := inject_Z a) in *. set (Pq := inject_Z p) in *.
  change (inject_Z 9007199254740992) with (9007199254740992 # 1)%Q in *.
  unfold ulp_half.
  split.
  - rewrite Qmult_assoc. apply Qmult_le_compat_r; [|by apply Qlt_le_weak]. lra.
  - rewrite Qmult_assoc. apply Qmult_le_compat_r; [|by apply Qlt_le_weak]. lra.
Qed.

Lemma value_normal x m e : normal_pos x m e -> (value x == inject_Z (Zpos m) * pow2 e)%Q.
Proof. intros [Hx _]. unfold value. rewrite Hx. reflexivity. Qed.

Lemma value_scale (m k E : Z) :
  0 <= k -> (inject_Z (m * 2 ^ k) * pow2 E == inject_Z m * pow2 (k + E))%Q.
Proof. intros Hk. rewrite inject_Z_mult, pow2_inject, pow2_add by done. ring. Qed.

Lemma value_pos x m e : normal_pos x m e -> (0 < value x)%Q.
Proof.
  intros Hx. rewrite (value_normal x m e Hx).
  apply Qmult_lt_0_compat; [reflexivity | apply pow2_pos].
Qed.

Lemma mul_normal x y mx ex my ey :
  normal_pos x mx ex -> normal_pos y my ey ->
  -1074 <= ex + ey + 52 -> ex + ey + 54 <= 971 ->
  exists m e,
    normal_pos (x * y)%float m e
    /\ ex + ey + 52 <= e <= ex + ey + 54
    /\ ((1 - ulp_half) * (value x * value y) <= value (x * y)%float
        /\ value (x * y)%float <= (1 + ulp_half) * (value x * value y))%Q.
Proof.
  intros Hx Hy Hlo Hhi.
  destruct (SFmul_normal false mx ex false my ey (proj2 Hx) (proj2 Hy) Hlo Hhi)
    as (m & e & Hres & Hdm & He & Herr).
  assert (Hxy : normal_pos (x * y)%float m e).
  { split; [|exact Hdm]. rewrite mul_spec, (proj1 Hx), (proj1 Hy). exact Hres. }
  exists m, e. split; [exact Hxy|]. split; [exact He|].
  rewrite (value_normal _ _ _ Hxy), (value_normal _ _ _ Hx), (value_normal _ _ _ Hy).
  pose proof (scaled_error _ _ (pow2 (ex + ey)) (pow2_pos _) Herr) as Hq.
  rewrite value_scale in Hq by lia.
  replace (e - (ex + ey) + (ex + ey)) with e in Hq by lia.
  rewrite inject_Z_mult, pow2_add in Hq.
  assert (Heq : (inject_Z (Zpos mx) * pow2 ex * (inject_Z (Zpos my) * pow2 ey)
                 == inject_Z (Zpos mx) * inject_Z (Zpos my) * (pow2 ex * pow2 ey))%Q) by ring.
  rewrite Heq. exact Hq.
Qed.

Lemma div_normal x y mx ex my ey :
  normal_pos x mx ex -> normal_pos y my ey ->
  -1074 <= ex - ey - 53 -> ex - ey - 51 <= 971 ->
  exists m e,
    normal_pos (x / y)%float m e
    /\ ex - ey - 53 <= e <= ex - ey - 51
    /\ ((1 - ulp_half) * value x <= value (x / y)%float * value y
        /\ value (x / y)%float * value y <= (1 + ulp_half) * value x)%Q.
Proof.
  intros Hx Hy Hlo Hhi.
  destruct (SFdiv_normal false mx ex false my ey (proj2 Hx) (proj2 Hy) Hlo Hhi)
    as (m & e & Hres & Hdm & He & Herr).
  assert (Hxy : normal_pos (x / y)%float m e).
  { split; [|exact Hdm]. rewrite div_spec, (proj1 Hx), (proj1 Hy). exact Hres. }
  exists m, e. split; [exact Hxy|]. split; [exact He|].
  rewrite (value_normal _ _ _ Hxy), (value_normal _ _ _ Hx), (value_normal _ _ _ Hy).
  pose proof (scaled_error _ _ (pow2 (ex - 53)) (pow2_pos _) Herr) as Hq.
  rewrite !value_scale in Hq by lia.
  replace (53 + (ex - 53)) with ex in Hq by lia.
  replace (e - (ex - ey - 53) + (ex - 53)) with (e + ey) in Hq by lia.
  rewrite inject_Z_mult, pow2_add in Hq.
  assert (Heq : (inject_Z (Zpos m) * pow2 e * (inject_Z (Zpos my) * pow2 ey)
                 == inject_Z (Zpos m) * inject_Z (Zpos my) * (pow2 e * pow2 ey))%Q) by ring.
  rewrite Heq. exact Hq.
Qed.

Lemma between_normal lo hi x mlo elo mhi ehi :
  Prim2SF lo = S754_finite false mlo elo ->
  Prim2SF hi = S754_finite false mhi ehi ->
  -1074 < elo ->
  (lo <=? x)%float = true -> (x <=? hi)%float = true ->
  exists m e, normal_pos x m e /\ elo <= e <= ehi.
Proof.
  intros Hlo Hhi Helo Hle1 Hle2.
  rewrite leb_spec in Hle1, Hle2. rewrite Hlo in Hle1. rewrite Hhi in Hle2.
  pose proof (Prim2SF_valid x) as Hvalid.
  destruct (Prim2SF x) as [s|s| |s m e] eqn:Hx; try discriminate.
  - by destruct s.
  - unfold SFleb in *. cbn in Hle1, Hle2. destruct s; [discriminate|].
    exists m, e. 
    assert (elo <= e).
    { destruct (Z.compare_spec elo e); [lia..|discriminate]. }
    assert (e <= ehi).
    { destruct (Z.compare_spec e ehi); [lia..|discriminate]. }
    split; [|lia]. split; [exact Hx|].
    cbn in Hvalid. unfold bounded, canonical_mantissa in Hvalid.
    apply andb_prop in Hvalid as [Hcan _]. apply Z.eqb_eq in Hcan.
    unfold fexp, SpecFloat.emin, prec, emax in Hcan. lia.
Qed.

(** Two factors of one category are normal doubles whose exponents
    differ by 89 at most. *)
Lemma factor_pair_normal category unit_a unit_b f_a f_b :
  factor category unit_a = Some f_a ->
  factor category unit_b = Some f_b ->
  exists ma ea mb eb,
    normal_pos f_a ma ea /\ normal_pos f_b mb eb
    /\ -141 <= ea <= -13 /\ -141 <= eb <= -13 /\ -89 <= eb - ea <= 89.
Proof.
  unfold factor. intros Ha Hb.
  split_eqb_in Ha; try discriminate.
  all: split_eqb_in Hb; try discriminate.
  all: vm_compute in Ha, Hb; injection Ha as <-; injection Hb as <-.
  all: eexists _, _, _, _;
       split; [split; vm_compute; reflexivity|];
       (split; [split; vm_compute; reflexivity|]); lia.
Qed.

Lemma round_trip_error (X B Y1 YA Z1 ZB : Q) :
  (0 < X * B ->
  (1 - ulp_half) * (X * B) <= Y1 /\ Y1 <= (1 + ulp_half) * (X * B) ->
  (1 - ulp_half) * Y1 <= YA /\ YA <= (1 + ulp_half) * Y1 ->
  (1 - ulp_half) * YA <= Z1 /\ Z1 <= (1 + ulp_half) * YA ->
  (1 - ulp_half) * Z1 <= ZB /\ ZB <= (1 + ulp_half) * Z1 ->
  (1 - (1 # 1000000)) * (X * B) <= ZB /\ ZB <= (1 + (1 # 1000000)) * (X * B))%Q.
Proof. unfold ulp_half. intros. lra. Qed.
Lemma zero_mul_div a f m e (HA : Prim2SF a = S754_zero false) (Hf : normal_pos f m e) :
  Prim2SF (a * f)%float = S754_zero false /\ Prim2SF (a / f)%float = S754_zero false.
Proof.
  destruct Hf as [Hf _]. rewrite mul_spec, div_spec, HA, Hf. split; reflexivity.
Qed.

End Rounding.

(** ** Round trips *)

(** C5, amended. For every linear category and every two units of it,
    converting [x] from one to the other and the result back returns
    [x] within a relative error of 1e-6, for [x = 0] and for [x] from
    1e-280 to 1e280: there neither conversion overflows or leaves the
    normal range, and each of the four float operations is off by at
    most [2 ** -53]. *)
Theorem round_trip_within x category unit_a unit_b :
  In category categories -> category <> "Temperature" ->
  In unit_a (units category) -> In unit_b (units category) ->
  x = 0%float \/ ((1e-280 <=? x)%float = true /\ (x <=? 1e280)%float = true) ->
  exists y z,
    convert_units x unit_a unit_b category = Return (Some y)
    /\ convert_units y unit_b unit_a category = Return (Some z)
    /\ PyFloat.finite z = true
    /\ (Qabs (PyFloat.value z - PyFloat.value x) <= (1 # 1000000) * PyFloat.value x)%Q.
Proof.
  intros Hc Hlinear Hua Hub Hx.
  destruct (linear_unit_factor _ _ Hc Hlinear Hua) as [f_a Ha].
  destruct (linear_unit_factor _ _ Hc Hlinear Hub) as [f_b Hb].
  exists (x * f_b / f_a)%float, (x * f_b / f_a * f_a / f_b)%float.
  split; [by apply convert_units_linear|]. split; [by apply convert_units_linear|].
  destruct (Rounding.factor_pair_normal _ _ _ _ _ Ha Hb)
    as (ma & ea & mb & eb & Hfa & Hfb & Hea & Heb & Hab).
  destruct Hx as [->|[Hlo Hhi]].
  - assert (H0 : Prim2SF 0 = S754_zero false) by reflexivity.
    destruct (Rounding.zero_mul_div _ _ _ _ H0 Hfb) as [H1 _].
    destruct (Rounding.zero_mul_div _ _ _ _ H1 Hfa) as [_ H2].
    destruct (Rounding.zero_mul_div _ _ _ _ H2 Hfa) as [H3 _].
    destruct (Rounding.zero_mul_div _ _ _ _ H3 Hfb) as [_ H4].
    unfold PyFloat.finite, PyFloat.value. rewrite H4. split; [reflexivity|]. cbn. discriminate.
  - destruct (Rounding.between_normal 1e-280 1e280 x 8174961907854212 (-983) 4962080516648048 878
                eq_refl eq_refl ltac:(lia) Hlo Hhi)
      as (mx & ex & Hnx & Hex).
    destruct (Rounding.mul_normal x f_b _ _ _ _ Hnx Hfb) as (m1 & e1 & Hn1 & He1 & Hq1); [lia..|].
    destruct (Rounding.div_normal _ f_a _ _ _ _ Hn1 Hfa) as (m2 & e2 & Hn2 & He2 & Hq2); [lia..|].
    destruct (Rounding.mul_normal _ f_a _ _ _ _ Hn2 Hfa) as (m3 & e3 & Hn3 & He3 & Hq3); [lia..|].
    destruct (Rounding.div_normal _ f_b _ _ _ _ Hn3 Hfb) as (m4 & e4 & Hn4 & He4 & Hq4); [lia..|].
    split; [unfold PyFloat.finite; by rewrite (proj1 Hn4)|].
    pose proof (Rounding.value_pos _ _ _ Hnx) as HX.
    pose proof (Rounding.value_pos _ _ _ Hfb) as HB.
    assert (HXB : (0 < PyFloat.value x * PyFloat.value f_b)%Q) by (by apply Qmult_lt_0_compat).
    pose proof (Rounding.round_trip_error _ _ _ _ _ _ HXB Hq1 Hq2 Hq3 Hq4) as [Hl Hu].
    apply Qabs_Qle_condition. split.
    + apply (Qmult_le_r _ _ (PyFloat.value f_b)); [exact HB|].
      revert Hl.
      generalize (PyFloat.value (x * f_b / f_a * f_a / f_b)) (PyFloat.value x) (PyFloat.value f_b).
      intros Z X B Hl. lra.
    + apply (Qmult_le_r _ _ (PyFloat.value f_b)); [exact HB|].
      revert Hu.
      generalize (PyFloat.value (x * f_b / f_a * f_a / f_b)) (PyFloat.value x) (PyFloat.value f_b).
      intros Z X B Hu. lra.
Qed.

Lemma round_trip_within_witness :
  exists y z,
    convert_units 2.5 "feet" "m" "Length" = Return (Some y)
    /\ convert_units y "m" "feet" "Length" = Return (Some z)
    /\ PyFloat.finite z = true
    /\ (Qabs (PyFloat.value z - PyFloat.value 2.5) <= (1 # 1000000) * PyFloat.value 2.5)%Q.
Proof.
  apply (round_trip_within 2.5 "Length" "feet" "m").
  - vm_compute. tauto.
  - discriminate.
  - vm_compute. tauto.
  - vm_compute. tauto.
  - right. split; vm_compute; reflexivity.
Defined.

(** C5, as stated, fails at the ends of the float range. 1e-300 J is
    1.60216e-319 in the program's eV, a subnormal double with 15
    significant bits, and comes back as 9.999850680535235e-301 J, off
    by 1.5e-5 relatively; 1e300 Hz overflows to infinity in THz and
    stays there. *)
Lemma round_trip_outside_range :
  convert_units 1e-300 "J" "eV" "Energy" = Return (Some 1.60216e-319%float)
  /\ convert_units 1.60216e-319 "eV" "J" "Energy"
     = Return (Some 9.999850680535235e-301%float)
  /\ ((1 # 1000000) * PyFloat.value 1e-300
      < Qabs (PyFloat.value 9.999850680535235e-301 - PyFloat.value 1e-300))%Q
  /\ convert_units 1e300 "Hz" "THz" "Frequency" = Return (Some infinity)
  /\ convert_units infinity "THz" "Hz" "Frequency" = Return (Some infinity)
  /\ PyFloat.finite infinity = false.
Proof. repeat split; vm_compute; reflexivity. Qed.

(** ** Loading the stores *)

(** The loaders return what the files hold, and raise on bytes that
    are not text. *)
Lemma load_users_cases d :
  load_users d
  = if decodable (USER_DB d) then Return (stored_users d) else Raise UnicodeDecodeError.
Proof. unfold load_users, stored_users. by destruct (USER_DB d). Qed.

Lemma load_feedback_cases d :
  load_feedback d
  = if decodable (FEEDBACK_DB d)
    then Return (map fill_visible (stored_feedback d))
    else Raise UnicodeDecodeError.
Proof. unfold load_feedback, stored_feedback. by destruct (FEEDBACK_DB d). Qed.

Lemma load_users_stored d :
  decodable (USER_DB d) = true -> load_users d = Return (stored_users d).
Proof. intros Hd. by rewrite load_users_cases, Hd. Qed.

Lemma load_feedback_stored d :
  decodable (FEEDBACK_DB d) = true ->
  load_feedback d = Return (map fill_visible (stored_feedback d)).
Proof. intros Hd. by rewrite load_feedback_cases, Hd. Qed.

(** A file that holds a user is one [load_users] reads. *)
Lemma stored_users_decodable d name u :
  stored_users d !! name = Some u -> decodable (USER_DB d) = true.
Proof. unfold stored_users. by destruct (USER_DB d). Qed.

Lemma load_users_returns d users :
  load_users d = Return users -> decodable (USER_DB d) = true /\ users = stored_users d.
Proof. rewrite load_users_cases. destruct (decodable _); [by intros [= <-] | done]. Qed.

Lemma load_feedback_returns d feedbacks :
  load_feedback d = Return feedbacks ->
  decodable (FEEDBACK_DB d) = true /\ feedbacks = map fill_visible (stored_feedback d).
Proof. rewrite load_feedback_cases. destruct (decodable _); [by intros [= <-] | done]. Qed.

(** C8. A missing file raises [FileNotFoundError] in [open] and a text
    that is not JSON raises [JSONDecodeError] in [json.load]; both
    loaders catch the two and return the empty dict, or the empty list.
    A file whose bytes are not text holds no JSON either, but there
    [json.load] raises [UnicodeDecodeError], which the [except] clause
    of the loaders does not name: the loaders raise it. The two files
    are independent, so each loader is given a disk of its own. *)
Theorem load_missing_or_invalid (d1 d2 : disk) :
  missing_or_invalid (USER_DB d1) ->
  missing_or_invalid (FEEDBACK_DB d2) ->
  load_users d1
  = (if decodable (USER_DB d1) then Return ∅ else Raise UnicodeDecodeError)
  /\ load_feedback d2
     = (if decodable (FEEDBACK_DB d2) then Return [] else Raise UnicodeDecodeError).
Proof.
  unfold load_users, load_feedback.
  intros [-> | [-> | ->]] [-> | [-> | ->]]; split; reflexivity.
Qed.

Lemma load_missing_or_invalid_witness :
  load_users {| USER_DB := Undecodable; FEEDBACK_DB := Stored [] |}
  = Raise UnicodeDecodeError
  /\ load_feedback {| USER_DB := Stored ∅; FEEDBACK_DB := Undecodable |}
     = Raise UnicodeDecodeError.
Proof.
  apply (load_missing_or_invalid
           {| USER_DB := Undecodable; FEEDBACK_DB := Stored [] |}
           {| USER_DB := Stored ∅; FEEDBACK_DB := Undecodable |});
    right; right; reflexivity.
Defined.

(** Where the file is missing or is a text that is not JSON, both
    loaders return the empty store. *)
Example load_missing_or_not_json :
  load_users {| USER_DB := Missing; FEEDBACK_DB := Stored [] |} = Return ∅
  /\ load_users {| USER_DB := Malformed; FEEDBACK_DB := Stored [] |} = Return ∅
  /\ load_feedback {| USER_DB := Stored ∅; FEEDBACK_DB := Missing |} = Return []
  /\ load_feedback {| USER_DB := Stored ∅; FEEDBACK_DB := Malformed |} = Return [].
Proof. repeat split; reflexivity. Qed.

(** ** Credential store *)

(** C6. With the username already a key, [register_user] returns
    [False] whatever the password and writes nothing; otherwise, the
    users file being one that [load_users] can read (missing, not
    JSON, or stored), it returns [True] and the users file then holds
    the old users and the new one, with the digest of the password and
    the role "user". *)
Theorem register_user_spec username password d :
  (is_Some (stored_users d !! username) ->
   register_user username password d = Return (false, d))
  /\ (decodable (USER_DB d) = true ->
      stored_users d !! username = None ->
      exists d', register_user username password d = Return (true, d')
        /\ load_users d'
           = Return (<[username := {| password := hash_password password;
                                      role := "user" |}]> (stored_users d))
        /\ FEEDBACK_DB d' = FEEDBACK_DB d).
Proof.
  unfold register_user. split.
  - intros [u Hu]. rewrite load_users_stored.
    + cbn [mbind py_bind]. by rewrite Hu.
    + unfold stored_users in Hu. by destruct (USER_DB d).
  - intros Hd Hfree. rewrite load_users_stored by done. cbn [mbind py_bind].
    rewrite Hfree. eexists. split; [reflexivity|]. split; reflexivity.
Qed.

(** C7. [authenticate_user] returns a user exactly when it is stored
    under the username with the digest of the given password, and
    [None] exactly when [load_users] can read the users file and the
    username is absent or its digest differs. *)
Theorem authenticate_user_spec username pw d :
  (forall u, authenticate_user username pw d = Return (Some u)
             <-> stored_users d !! username = Some u
                 /\ password u = hash_password pw)
  /\ (authenticate_user username pw d = Return None
      <-> decodable (USER_DB d) = true
          /\ (stored_users d !! username = None
              \/ exists u, stored_users d !! username = Some u
                           /\ password u <> hash_password pw)).
Proof.
  unfold authenticate_user. rewrite load_users_cases.
  destruct (decodable (USER_DB d)) eqn:Hd; cbn [mbind py_bind].
  2: { assert (Hnone : stored_users d !! username = None).
       { unfold stored_users. by destruct (USER_DB d). }
       split; [|split; [done | by intros [? _]]].
       intros u. split; [done|]. intros [Hu _]. congruence. }
  assert (Hiff : forall P : Prop, P <-> true = true /\ P) by (intros P; tauto).
  rewrite <- Hiff. clear Hiff.
  destruct (stored_users d !! username) as [[stored r]|] eqn:Hu.
  - cbn [password]. destruct (String.eqb_spec stored (hash_password pw)) as [Heq|Hne].
    + split.
      * intros u. split; [intros [= <-]; done | intros [[= <-] _]; done].
      * split; [discriminate | intros [?|(u & [= <-] & Hu')]; [done | by destruct Hu']].
    + split.
      * intros u. split; [discriminate | intros [[= <-] ?]; by destruct Hne].
      * split; [intros _; right; eauto | done].
  - split.
    + intros u. split; [discriminate | intros [? _]; done].
    + split; [by left | done].
Qed.

Lemma register_user_spec_witness :
  let alice := {| password := hash_password "longpassword"; role := "user" |} in
  let d0 := {| USER_DB := Missing; FEEDBACK_DB := Missing |} in
  let d1 := {| USER_DB := Stored {[ "alice" := alice ]}; FEEDBACK_DB := Missing |} in
  register_user "alice" "another password" d1 = Return (false, d1)
  /\ exists d', register_user "alice" "longpassword" d0 = Return (true, d')
       /\ load_users d' = Return (<["alice" := alice]> (stored_users d0))
       /\ FEEDBACK_DB d' = FEEDBACK_DB d0.
Proof.
  intros alice d0 d1. split.
  - apply (register_user_spec "alice" "another password" d1).
    exists alice. reflexivity.
  - apply (register_user_spec "alice" "longpassword" d0); reflexivity.
Defined.

Lemma authenticate_user_spec_witness :
  let alice := {| password := hash_password "longpassword"; role := "user" |} in
  let d1 := {| USER_DB := Stored {[ "alice" := alice ]}; FEEDBACK_DB := Missing |} in
  authenticate_user "alice" "longpassword" d1 = Return (Some alice)
  /\ authenticate_user "alice" "wrong" d1 = Return None.
Proof.
  intros alice d1. split.
  - apply (authenticate_user_spec "alice" "longpassword" d1). split; reflexivity.
  - apply (authenticate_user_spec "alice" "wrong" d1). split; [reflexivity|]. right.
    exists alice. split; [reflexivity|]. vm_compute. discriminate.
Defined.

(** C10. [register_user] looks at the username only: with the username
    free, in a users file [load_users] can read, it succeeds for every
    password, the empty one included, and stores its digest. The bound
    of 8 characters is the test [len(password) >= 8] of
    [login_section], which does not call [register_user] for a shorter
    password. *)
Theorem register_user_any_password username d :
  decodable (USER_DB d) = true ->
  stored_users d !! username = None ->
  (forall password, exists d',
      register_user username password d = Return (true, d')
      /\ stored_users d' !! username
         = Some {| password := hash_password password; role := "user" |})
  /\ (exists d', register_user username "" d = Return (true, d'))
  /\ (forall password st, len password < 8 ->
        login_section REGISTER username password st d
        = Return ("Password Must Be 8+ Characters", st, d))
  /\ (forall password st, 8 <= len password -> exists d',
        login_section REGISTER username password st d
        = Return ("Registration Successful!", st, d')).
Proof.
  intros Hd Hfree.
  assert (Hreg : forall password, exists d',
             register_user username password d = Return (true, d')
             /\ stored_users d' !! username
                = Some {| password := hash_password password; role := "user" |}).
  { intros password. unfold register_user.
    rewrite load_users_stored by done. cbn [mbind py_bind]. rewrite Hfree.
    eexists. split; [reflexivity|]. cbn. apply lookup_insert_eq. }
  split; [exact Hreg|]. split; [|split].
  - destruct (Hreg "") as (d' & H & _). eauto.
  - intros password st Hlen. unfold login_section.
    destruct (Nat.leb_spec 8 (len password)); [lia | reflexivity].
  - intros password st Hlen. unfold login_section.
    destruct (Nat.leb_spec 8 (len password)); [|lia].
    destruct (Hreg password) as (d' & -> & _). eauto.
Qed.

Lemma register_user_any_password_witness :
  let d0 := {| USER_DB := Missing; FEEDBACK_DB := Missing |} in
  exists d', register_user "bob" "" d0 = Return (true, d').
Proof.
  intros d0.
  apply (register_user_any_password "bob" d0); reflexivity.
Defined.

(** ** Sorting *)

Section StableSort.
Context {A : Type}.
Implicit Types (x y : Z * A) (l : list (Z * A)).

Lemma insert_sorted_perm x l : Permutation (insert_sorted Z.ltb x l) (x :: l).
Proof.
  induction l as [|y l IH]; cbn; [done|].
  destruct (y.1 <? x.1)%Z; [|done].
  rewrite IH. apply perm_swap.
Qed.

Lemma stable_sort_perm l : Permutation (stable_sort Z.ltb l) l.
Proof.
  induction l as [|x l IH]; cbn; [done|].
  rewrite insert_sorted_perm. by constructor.
Qed.

Lemma insert_sorted_sorted x l :
  StronglySorted key_le l -> StronglySorted key_le (insert_sorted Z.ltb x l).
Proof.
  induction 1 as [|y l Hl IH Hy]; cbn.
  - repeat constructor.
  - destruct (Z.ltb_spec y.1 x.1) as [Hlt|Hge].
    + constructor; [exact IH|].
      rewrite insert_sorted_perm. constructor; [unfold key_le; lia | exact Hy].
    + constructor; [by constructor|].
      constructor; [exact Hge|].
      eapply List.Forall_impl; [|exact Hy]. unfold key_le. intros z Hz. lia.
Qed.

Lemma stable_sort_sorted l : StronglySorted key_le (stable_sort Z.ltb l).
Proof.
  induction l as [|x l IH]; cbn; [constructor|].
  by apply insert_sorted_sorted.
Qed.

(** Stability: the elements of each key stay in the order they had. *)
Lemma insert_sorted_stable k x l :
  List.filter (key_is k) (insert_sorted Z.ltb x l) = List.filter (key_is k) (x :: l).
Proof.
  induction l as [|y l IH]; [done|].
  cbn [insert_sorted]. destruct (Z.ltb_spec y.1 x.1) as [Hlt|Hge]; [|done].
  cbn [List.filter] in *. rewrite IH. unfold key_is.
  destruct (Z.eqb_spec y.1 k), (Z.eqb_spec x.1 k); try done. lia.
Qed.

Lemma stable_sort_stable k l :
  List.filter (key_is k) (stable_sort Z.ltb l) = List.filter (key_is k) l.
Proof.
  induction l as [|x l IH]; [done|].
  cbn [stable_sort]. rewrite insert_sorted_stable. cbn [List.filter].
  by rewrite IH.
Qed.
End StableSort.

Lemma StronglySorted_snoc {A} (R : A -> A -> Prop) l x :
  StronglySorted R l -> Forall (fun y => R y x) l -> StronglySorted R (l ++ [x]).
Proof.
  induction 1 as [|y l Hl IH Hy]; cbn; intros Hx.
  - repeat constructor.
  - inversion_clear Hx as [|? ? Hyx Hlx]. constructor; [by apply IH|].
    apply List.Forall_app. split; [exact Hy | by constructor].
Qed.

Lemma StronglySorted_rev {A} (R : A -> A -> Prop) l :
  StronglySorted R l -> StronglySorted (fun a b => R b a) (rev l).
Proof.
  induction 1 as [|x l Hl IH Hx]; cbn; [constructor|].
  apply StronglySorted_snoc; [exact IH|].
  apply List.Forall_forall. intros y Hy. apply in_rev in Hy.
  rewrite List.Forall_forall in Hx. by apply Hx.
Qed.

Section SortByKey.
Context {A : Type} (key : A -> py Z) (k : A -> Z).

#[local] Abbreviation keyed := (keyed k).

Lemma with_keys_keyed l :
  Forall (fun x => key x = Return (k x)) l -> with_keys key l = Return (keyed l).
Proof.
  induction 1 as [|x l Hx _ IH]; cbn; [done|].
  rewrite Hx. cbn. rewrite IH. reflexivity.
Qed.

Lemma keyed_snd l : map snd (keyed l) = l.
Proof. unfold keyed. rewrite map_map. cbn. apply map_id. Qed.

(** A list of pairs that pair each element with its key is [keyed]. *)
Lemma keyed_of_pairs (s : list (Z * A)) :
  Forall (fun p => p.1 = k p.2) s -> s = keyed (map snd s).
Proof.
  induction 1 as [|[z x] s Hp _ IH]; [done|].
  cbn in Hp. subst z. cbn [map snd]. unfold keyed in *. cbn [map]. by rewrite <- IH.
Qed.

Lemma keyed_pairs l : Forall (fun p => p.1 = k p.2) (keyed l).
Proof. unfold keyed. apply List.Forall_map. by apply List.Forall_forall. Qed.

Lemma keyed_sorted (R : Z -> Z -> Prop) l :
  StronglySorted (fun p q : Z * A => R p.1 q.1) (keyed l) ->
  StronglySorted (fun a b => R (k a) (k b)) l.
Proof.
  induction l as [|x l IH]; cbn; intros H; [constructor|].
  inversion_clear H as [|? ? Hl Hx]. constructor; [by apply IH|].
  unfold keyed in Hx. rewrite List.Forall_map in Hx. exact Hx.
Qed.

Lemma keyed_filter r l :
  map snd (List.filter (key_is r) (keyed l)) = List.filter (fun x => (k x =? r)%Z) l.
Proof.
  induction l as [|x l IH]; [done|].
  unfold keyed in *. cbn [map List.filter]. unfold key_is at 1. cbn [fst].
  destruct (k x =? r)%Z; cbn [map snd]; by rewrite IH.
Qed.

(** [l.sort(key=key, reverse=True)] when no call of [key] raises:
    the same elements, by descending key, those of equal key in the
    order they had. *)
Lemma list_sort_reverse l :
  Forall (fun x => key x = Return (k x)) l ->
  exists out,
    list_sort Z.ltb key true l = Return out
    /\ Permutation out l
    /\ StronglySorted (fun a b => (k b <= k a)%Z) out
    /\ forall r, List.filter (fun x => (k x =? r)%Z) out
                 = List.filter (fun x => (k x =? r)%Z) l.
Proof.
  intros Hkey. unfold list_sort. rewrite (with_keys_keyed _ Hkey). cbn [mbind py_bind].
  set (s := rev (stable_sort Z.ltb (rev (keyed l)))).
  assert (Hperm : Permutation s (keyed l)).
  { unfold s. rewrite <- Permutation_rev, stable_sort_perm. symmetry. apply Permutation_rev. }
  assert (Hs : s = keyed (map snd s)).
  { apply keyed_of_pairs. eapply Permutation_Forall; [symmetry; exact Hperm|].
    apply keyed_pairs. }
  exists (map snd s). split; [reflexivity|]. split; [|split].
  - transitivity (map snd (keyed l)); [by apply Permutation_map | by rewrite keyed_snd].
  - apply (keyed_sorted (fun a b => (b <= a)%Z)). rewrite <- Hs.
    unfold s. apply (StronglySorted_rev key_le). apply stable_sort_sorted.
  - intros r. rewrite <- !keyed_filter, <- Hs. unfold s.
    rewrite filter_rev, stable_sort_stable, filter_rev, rev_involutive. reflexivity.
Qed.
End SortByKey.

(** ** Reviews *)

Lemma shown_selected min_rating f :
  (1 <= min_rating)%Z -> shown min_rating f = selected min_rating f.
Proof.
  intros Hmin. unfold shown, selected, visible, rating_at_least.
  destruct (fb_rating f) as [r|]; cbn; [apply andb_comm|].
  destruct (Z.leb_spec min_rating 0); [lia|]. by destruct (default true (fb_visible f)).
Qed.

(** C9. With "Highest Rating" chosen and a minimum rating from the
    select box (1 to 5), [review_section] shows exactly the loaded
    records that are visible and rate at least the minimum, by
    descending rating, those of equal rating in the order of the file. *)
Theorem review_section_highest_rating min_rating d feedbacks :
  (1 <= min_rating)%Z ->
  load_feedback d = Return feedbacks ->
  exists out,
    review_section min_rating "Highest Rating" d = Return out
    /\ Permutation out (List.filter (selected min_rating) feedbacks)
    /\ StronglySorted rated_no_higher out
    /\ forall r, List.filter (has_rating r) out
                 = List.filter (has_rating r) (List.filter (selected min_rating) feedbacks).
Proof.
  intros Hmin Hload. unfold review_section. rewrite Hload. cbn [mbind py_bind].
  change ("Highest Rating" =? "Highest Rating")%string with true. cbv iota.
  rewrite (filter_ext _ _ (fun f => shown_selected min_rating f Hmin)).
  set (l := List.filter (selected min_rating) feedbacks).
  assert (Hrated : Forall (fun f => is_Some (fb_rating f)) l).
  { apply List.Forall_forall. intros f Hf. apply filter_In in Hf as [_ Hf].
    unfold selected, rating_at_least in Hf. destruct (fb_rating f); [eauto|].
    by rewrite andb_false_r in Hf. }
  assert (Hkey : Forall (fun f => rating_key f = Return (default 0%Z (fb_rating f))) l).
  { eapply List.Forall_impl; [|exact Hrated]. intros f [r Hr]. cbn in *.
    unfold rating_key. by rewrite Hr. }
  destruct (list_sort_reverse rating_key _ l Hkey) as (out & Hout & Hperm & Hsorted & Hstable).
  assert (Hres : match feedbacks with
                 | [] => Return []
                 | _ :: _ => list_sort Z.ltb rating_key true l
                 end = Return out).
  { destruct feedbacks; [|exact Hout]. cbn in Hout. by injection Hout as <-. }
  exists out. split; [exact Hres|]. split; [exact Hperm|]. split; [exact Hsorted|].
  intros r.
  assert (Hext : forall m, Forall (fun f => is_Some (fb_rating f)) m ->
                 List.filter (has_rating r) m
                 = List.filter (fun f => (default 0%Z (fb_rating f) =? r)%Z) m).
  { induction 1 as [|f m [r' Hf] _ IH]; cbn; [done|].
    unfold has_rating at 1. rewrite Hf, IH. reflexivity. }
  rewrite !Hext; [apply Hstable | exact Hrated |].
  eapply Permutation_Forall; [symmetry; exact Hperm | exact Hrated].
Qed.

Example review_section_example :
  review_section 3 "Highest Rating" example_disk
  = Return [ example_record "b" (Some 5%Z) (Some true);
             example_record "g" (Some 4%Z) (Some true);
             example_record "a" (Some 3%Z) (Some true);
             example_record "d" (Some 3%Z) (Some true) ].
Proof. vm_compute. reflexivity. Qed.

Lemma review_section_highest_rating_witness :
  let feedbacks := map fill_visible (stored_feedback example_disk) in
  exists out,
    review_section 3 "Highest Rating" example_disk = Return out
    /\ Permutation out (List.filter (selected 3) feedbacks)
    /\ StronglySorted rated_no_higher out
    /\ forall r, List.filter (has_rating r) out
                 = List.filter (has_rating r) (List.filter (selected 3) feedbacks).
Proof.
  intros feedbacks.
  apply (review_section_highest_rating 3 example_disk feedbacks); [lia | reflexivity].
Defined.

(** * Further properties *)

(** Zero converts to zero between any two units of a linear category. *)
Theorem convert_units_zero category from_unit to_unit f_from f_to :
  factor category from_unit = Some f_from ->
  factor category to_unit = Some f_to ->
  convert_units 0 from_unit to_unit category = Return (Some 0%float).
Proof.
  unfold factor. intros Hfrom Hto.
  split_eqb_in Hfrom; try discriminate.
  all: split_eqb_in Hto; try discriminate.
  all: vm_compute; reflexivity.
Qed.

Lemma convert_units_zero_witness :
  convert_units 0 "nm" "feet" "Length" = Return (Some 0%float).
Proof.
  apply (convert_units_zero "Length" "nm" "feet" 1e-9 0.3048); vm_compute; reflexivity.
Defined.

(** A user who has just registered is authenticated with the same
    password, and gets the stored record back. *)
Theorem authenticate_after_register username password d d' :
  register_user username password d = Return (true, d') ->
  authenticate_user username password d'
  = Return (Some {| password := hash_password password; role := "user" |}).
Proof.
  unfold register_user. rewrite load_users_cases.
  destruct (decodable (USER_DB d)); [|discriminate]. cbn [mbind py_bind].
  destruct (stored_users d !! username) eqn:Hu; [discriminate|].
  intros [= <-]. unfold authenticate_user. rewrite load_users_stored by done.
  cbn [mbind py_bind stored_users USER_DB]. rewrite lookup_insert_eq.
  by rewrite String.eqb_refl.
Qed.

Lemma authenticate_after_register_witness :
  let d0 := {| USER_DB := Malformed; FEEDBACK_DB := Missing |} in
  exists d', register_user "alice" "longpassword" d0 = Return (true, d')
    /\ authenticate_user "alice" "longpassword" d'
       = Return (Some {| password := hash_password "longpassword"; role := "user" |}).
Proof.
  intros d0. eexists. split; [reflexivity|].
  apply (authenticate_after_register "alice" "longpassword" d0). reflexivity.
Defined.



(** ** Rounding never fails *)

Module RoundTotal.
Import PyFloat.
#[local] Open Scope Z_scope.

(** A mantissa that only carries zero bits below the 53 kept ones is
    rounded to itself. *)
Lemma binary_round_aux_exact s (m : positive) ex n :
  Zpos (digits2_pos m) = 53 -> 0 <= n -> -1074 <= ex + n <= 971 ->
  binary_round_aux prec emax s (Zpos m * 2 ^ n) ex loc_Exact = S754_finite s m (ex + n).
Proof.
  intros Hd Hn He.
  assert (Hpn : 0 < 2 ^ n) by (apply Z.pow_pos_nonneg; lia).
  destruct (Zpos m * 2 ^ n) as [|q|q] eqn:Hq; [lia| |lia].
  assert (Hdq : Zpos (digits2_pos q) = 53 + n).
  { apply Rounding.Zdigits2_unique. rewrite <- Hq.
    pose proof (Rounding.digits2_pos_bounds m) as Hm. rewrite Hd in Hm.
    replace (53 + n - 1) with (52 + n) by lia.
    rewrite !Z.pow_add_r by lia. change (53 - 1) with 52 in Hm. nia. }
  unfold binary_round_aux. rewrite (Rounding.shr_fexp_normal q ex loc_Exact n) by lia.
  destruct (Rounding.located_iter (Zpos q) 1 (shr_record_of_loc (Zpos q) loc_Exact)
              (Z.to_nat n) ltac:(lia)) as [Hloc Hm'];
    [cbn; lia | apply Rounding.located_exact |].
  rewrite Z2Nat.id in Hloc, Hm' by done.
  set (mrs := Nat.iter (Z.to_nat n) shr_1 (shr_record_of_loc (Zpos q) loc_Exact)) in *.
  cbn [shr_record_of_loc shr_m] in Hm'.
  assert (Hmm : shr_m mrs = Zpos m).
  { rewrite Hm', <- Hq. apply Z.div_mul. lia. }
  assert (HR : round_nearest_even (shr_m mrs) (loc_of_shr_record mrs) = Zpos m).
  { destruct Hloc as (rest & HP & Hrest & Hr & Hs). rewrite Hmm in HP.
    assert (rest = 0) by lia. subst rest.
    destruct mrs as [mm [|] ss]; cbn in *; [lia|]. by destruct ss. }
  rewrite HR. unfold shr_fexp. cbn [Zdigits2]. rewrite Hd, Rounding.fexp_normal by lia.
  replace (53 + (ex + n) - 53 - (ex + n)) with 0 by lia.
  cbn [shr shr_record_of_loc shr_m].
  destruct (Z.leb_spec (ex + n) (emax - prec)) as [_|Hbad];
    [reflexivity | unfold emax, prec in Hbad; lia].
Qed.

Lemma nearest_exact s (m : positive) e :
  Zpos (digits2_pos m) = 53 -> 0 <= e <= 971 ->
  nearest s (Zpos m * 2 ^ e * 1000000) 1000000 = S754_finite s m e.
Proof.
  intros Hd He.
  assert (Hpe : 0 < 2 ^ e) by (apply Z.pow_pos_nonneg; lia).
  destruct (Zpos m * 2 ^ e * 1000000) as [|k|k] eqn:Hk; [lia| |lia].
  unfold nearest. cbn [SFdiv]. unfold SFdiv_core_binary. cbn [Zdigits2].
  change (Zpos (digits2_pos 1000000)) with 20.
  set (E := Z.min _ _).
  assert (HE : E <= 0) by (unfold E; lia).
  clearbody E.
  assert (Hm' : match 0 - 0 - E with
                | 0 => Zpos k
                | Zpos _ => Z.shiftl (Zpos k) (0 - 0 - E)
                | Zneg _ => 0
                end = Zpos k * 2 ^ (- E)).
  { replace (0 - 0 - E) with (- E) by lia.
    destruct (- E) as [|t|t] eqn:Ht; [cbn; lia | | lia].
    rewrite Z.shiftl_mul_pow2 by lia. reflexivity. }
  rewrite Hm'.
  assert (Hpt : 0 < 2 ^ (- E)) by (apply Z.pow_pos_nonneg; lia).
  pose proof (Z_div_mod (Zpos k * 2 ^ (- E)) 1000000 ltac:(lia)) as Hdiv.
  destruct (Z.div_eucl (Zpos k * 2 ^ (- E)) 1000000) as [q r].
  destruct Hdiv as [Hq Hr]. rewrite <- Hk in Hq.
  assert (Hq' : q = Zpos m * 2 ^ (e + - E) /\ r = 0).
  { rewrite Z.pow_add_r by lia. nia. }
  destruct Hq' as [-> ->].
  change (new_location 1000000 0) with loc_Exact.
  rewrite binary_round_aux_exact by lia. rewrite xorb_false_r. f_equal. lia.
Qed.

Lemma nearest_small s k :
  0 <= k < 2 ^ 73 ->
  match nearest s k 1000000 with S754_infinity _ => False | _ => True end.
Proof.
  intros Hk. destruct k as [|k|k]; [exact I | | lia].
  pose proof (Rounding.digits2_pos_bounds k) as Hdk.
  set (d := Zpos (digits2_pos k)) in *.
  assert (Hd : 0 < d <= 73).
  { split; [unfold d; lia|].
    assert (d - 1 < 73) by (apply Rounding.pow2_lt_inv; lia). lia. }
  unfold nearest. cbn [SFdiv]. unfold SFdiv_core_binary. cbn [Zdigits2]. fold d.
  change (Zpos (digits2_pos 1000000)) with 20.
  replace (d + 0 - (20 + 0)) with (d - 20) by lia.
  rewrite Rounding.fexp_normal by lia.
  rewrite Z.min_l by lia.
  replace (0 - 0 - (d - 20 - 53)) with (73 - d) by lia.
  assert (Hm' : match 73 - d with
                | 0 => Zpos k
                | Zpos _ => Z.shiftl (Zpos k) (73 - d)
                | Zneg _ => 0
                end = Zpos k * 2 ^ (73 - d)).
  { destruct (73 - d) as [|t|t] eqn:Ht; [cbn; lia | | lia].
    rewrite Z.shiftl_mul_pow2 by lia. reflexivity. }
  rewrite Hm'.
  assert (Hpt : 0 < 2 ^ (73 - d)) by (apply Z.pow_pos_nonneg; lia).
  assert (Hbig : 2 ^ 72 <= Zpos k * 2 ^ (73 - d) < 2 ^ 73).
  { assert (H72 : 2 ^ 72 = 2 ^ (d - 1) * 2 ^ (73 - d)).
    { rewrite <- Z.pow_add_r by lia. f_equal. lia. }
    assert (H73 : 2 ^ 73 = 2 ^ d * 2 ^ (73 - d)).
    { rewrite <- Z.pow_add_r by lia. f_equal. lia. }
    rewrite H72, H73. nia. }
  set (P := Zpos k * 2 ^ (73 - d)) in *.
  pose proof (Z_div_mod P 1000000 ltac:(lia)) as Hdiv.
  destruct (Z.div_eucl P 1000000) as [q r]. destruct Hdiv as [Hq Hr].
  change (2 ^ 72) with 4722366482869645213696 in Hbig.
  change (2 ^ 73) with 9444732965739290427392 in Hbig.
  assert (Hqb : 4503599627370496 <= q < 4 * 4503599627370496) by lia.
  destruct q as [|q|q]; [lia| |lia].
  pose proof (Rounding.digits2_pos_bounds q) as Hdq.
  set (dq := Zpos (digits2_pos q)) in *.
  assert (Hdqb : 52 < dq < 55).
  { split; apply Rounding.pow2_lt_inv.
    - change (2 ^ 52) with 4503599627370496. lia.
    - change (2 ^ 55) with (8 * 4503599627370496).
      assert (2 ^ dq = 2 * 2 ^ (dq - 1)) as Hdd.
      { rewrite <- Z.pow_succ_r by lia. f_equal. lia. }
      lia. }
  rewrite xorb_false_r.
  destruct (Rounding.binary_round_aux_located s q (d - 20 - 53)
              (new_location 1000000 r) P 1000000 (dq - 53))
    as (m & e & Hres & _); [lia | | fold dq; lia | lia | lia | lia |].
  { rewrite Hq, (Z.mul_comm 1000000). by apply Rounding.new_location_located. }
  rewrite Hres. exact I.
Qed.

Lemma div_half_even_bounds n d :
  0 <= n -> 0 < d -> 0 <= div_half_even n d <= n / d + 1.
Proof.
  intros Hn Hd. unfold div_half_even.
  assert (0 <= n / d) by (apply Z.div_pos; lia).
  destruct (2 * (n mod d) ?= d); [destruct (Z.even (n / d))|..]; lia.
Qed.

(** [round(x, 6)] never raises: the decimal it reads back is never out
    of the range of doubles. *)
Lemma round_returns x : exists r, round x 6 = Return r.
Proof.
  unfold round. pose proof (Prim2SF_valid x) as Hvalid.
  destruct (Prim2SF x) as [s|s| |s m e]; [eauto..|].
  cbn in Hvalid. unfold bounded, canonical_mantissa in Hvalid.
  apply andb_prop in Hvalid as [Hcan He]. apply Z.eqb_eq in Hcan. apply Z.leb_le in He.
  unfold fexp, SpecFloat.emin, prec, emax in Hcan, He.
  pose proof (Rounding.digits2_pos_bounds m) as Hm.
  cbv zeta. change (10 ^ Z.of_N 6) with 1000000. change (Z.to_pos 1000000) with 1000000%positive.
  destruct (Z.leb_spec 0 e) as [Hpos|Hneg].
  - rewrite nearest_exact by lia. eauto.
  - assert (Hp : 0 < 2 ^ (- e)) by (apply Z.pow_pos_nonneg; lia).
    assert (Hm53 : Zpos m < 2 ^ 53).
    { eapply Z.lt_le_trans; [apply Hm|]. apply Z.pow_le_mono_r; lia. }
    pose proof (div_half_even_bounds (Zpos m * 1000000) (2 ^ (- e)) ltac:(lia) Hp) as Hk.
    assert (Hdiv : Zpos m * 1000000 / 2 ^ (- e) < 2 ^ 72).
    { apply Z.div_lt_upper_bound; [done|].
      assert (2 <= 2 ^ (- e)).
      { change 2 with (2 ^ 1) at 1. apply Z.pow_le_mono_r; lia. }
      change (2 ^ 53) with 9007199254740992 in Hm53.
      change (2 ^ 72) with 4722366482869645213696. nia. }
    pose proof (nearest_small s (div_half_even (Zpos m * 1000000) (2 ^ (- e)))) as Hn.
    destruct (nearest s (div_half_even (Zpos m * 1000000) (2 ^ (- e))) 1000000);
      [eauto | | eauto..].
    exfalso. apply Hn. change (2 ^ 73) with (2 * 2 ^ 72). lia.
Qed.
End RoundTotal.

(** ** Choices of the converter *)

Lemma convert_units_offered value category from_unit to_unit :
  In category categories ->
  In from_unit (units category) -> In to_unit (units category) ->
  exists r, convert_units value from_unit to_unit category = Return (Some r).
Proof.
  intros Hc Hfrom Hto.
  destruct (String.eqb_spec category "Temperature") as [->|Hlinear].
  - vm_compute in Hfrom, Hto.
    repeat (destruct Hfrom as [<-|Hfrom]; [|]); [..|done].
    all: repeat (destruct Hto as [<-|Hto]; [|]); [..|done].
    all: unfold convert_units; split_eqb; cbn [mbind py_bind call as_float].
    all: match goal with
         | |- context [PyFloat.round ?raw 6] =>
             destruct (RoundTotal.round_returns raw) as [r ->]
         end; cbn; eauto.
  - destruct (linear_unit_factor _ _ Hc Hlinear Hfrom) as [f_from Hf_from].
    destruct (linear_unit_factor _ _ Hc Hlinear Hto) as [f_to Hf_to].
    rewrite (convert_units_linear value _ _ _ _ _ Hf_from Hf_to). eauto.
Qed.

(** In a category of the registry, [convert_units] returns a float
    for two units of the category, as the select boxes of the
    converter offer them, and [None] when a unit is not one of the
    category; it raises for no value. *)
Theorem convert_units_selected value category from_unit to_unit :
  In category categories ->
  (In from_unit (units category) /\ In to_unit (units category) ->
   exists r, convert_units value from_unit to_unit category = Return (Some r))
  /\ (~ In from_unit (units category) \/ ~ In to_unit (units category) ->
      convert_units value from_unit to_unit category = Return None).
Proof.
  intros Hc. split.
  - intros [Hfrom Hto]. by apply convert_units_offered.
  - by apply convert_units_unknown_unit.
Qed.

Lemma convert_units_selected_witness :
  (exists r, convert_units 1 "eV" "J" "Energy" = Return (Some r))
  /\ convert_units 20 "C" "R" "Temperature" = Return None.
Proof.
  split.
  - apply (convert_units_selected 1 "Energy" "eV" "J"); vm_compute; tauto.
  - apply (convert_units_selected 20 "Temperature" "C" "R").
    + vm_compute. tauto.
    + right. vm_compute. intuition congruence.
Defined.

(** ** Temperature round trips *)

Lemma round_trips_spec category a b x :
  round_trips category a b x = true ->
  exists y, convert_units x a b category = Return (Some y)
            /\ convert_units y b a category = Return (Some x).
Proof.
  unfold round_trips. intros H.
  destruct (convert_units x a b category) as [[y|]|]; try discriminate.
  exists y. split; [reflexivity|].
  destruct (convert_units y b a category) as [[z|]|]; try discriminate.
  apply FloatAxioms.Leibniz.eqb_spec in H. by subst.
Qed.

(** A whole number of degrees Celsius or kelvins, from -300 to 3000,
    comes back unchanged from a conversion to any Temperature unit and
    back. From Fahrenheit it need not: 2 F is -16.666667 C, which is
    1.999999 F. *)
Theorem temperature_round_trip_whole :
  (forall n a b,
      (-300 <= n <= 3000)%Z -> In a ["C"; "K"] -> In b (units "Temperature") ->
      exists y, convert_units (whole n) a b "Temperature" = Return (Some y)
                /\ convert_units y b a "Temperature" = Return (Some (whole n)))
  /\ convert_units 2 "F" "C" "Temperature" = Return (Some (-16.666667)%float)
  /\ convert_units (-16.666667) "C" "F" "Temperature" = Return (Some 1.999999%float).
Proof.
  split; [|split; vm_compute; reflexivity].
  intros n a b Hn Ha Hb. apply round_trips_spec.
  assert (Hall : forallb (fun n =>
                   forallb (fun a =>
                     forallb (fun b => round_trips "Temperature" a b (whole n))
                             (units "Temperature"))
                           ["C"; "K"])
                   (seqZ (-300) 3301) = true) by (vm_compute; reflexivity).
  rewrite forallb_forall in Hall.
  assert (Hin : In n (seqZ (-300) 3301)).
  { apply list_elem_of_In, elem_of_seqZ. lia. }
  specialize (Hall n Hin). rewrite forallb_forall in Hall.
  specialize (Hall a Ha). rewrite forallb_forall in Hall.
  exact (Hall b Hb).
Qed.

(** ** Energy calculator *)

(** For every frequency its input allows, 1 to 1000 THz, the energy
    calculator returns a float, within the relative distance 2^-51 of
    Planck's constant times the frequency in hertz. *)
Theorem energy_close (frequency : Z) :
  (1 <= frequency <= 1000)%Z ->
  exists e, energy frequency = Return e
            /\ (Qabs (PyFloat.value e - photon_energy frequency)
                <= photon_energy frequency * (1 # 2 ^ 51))%Q.
Proof.
  intros Hf.
  assert (Hall : forallb (fun f => match energy f with
                                   | Return e => close_to (photon_energy f) e
                                   | Raise _ => false
                                   end) (seqZ 1 1000) = true) by (vm_compute; reflexivity).
  rewrite forallb_forall in Hall.
  assert (Hin : In frequency (seqZ 1 1000)).
  { apply list_elem_of_In, elem_of_seqZ. lia. }
  specialize (Hall frequency Hin).
  destruct (energy frequency) as [e|]; [|discriminate].
  exists e. split; [reflexivity|]. by apply Qle_bool_iff.
Qed.

Lemma energy_close_witness :
  exists e, energy 500 = Return e
            /\ (Qabs (PyFloat.value e - photon_energy 500)
                <= photon_energy 500 * (1 # 2 ^ 51))%Q.
Proof. apply energy_close. lia. Defined.
(** ** Digests *)

Lemma be_bytes_length n x : length (SHA256.be_bytes n x) = n.
Proof.
  revert x. induction n as [|n IH]; intros x; cbn; [done|].
  rewrite length_app, IH. cbn. lia.
Qed.

Lemma be_bytes_range n x : Forall (fun b => 0 <= b < 256)%Z (SHA256.be_bytes n x).
Proof.
  revert x. induction n as [|n IH]; intros x; cbn; [constructor|].
  apply List.Forall_app. split; [apply IH|].
  constructor; [|constructor]. apply Z.mod_pos_bound. lia.
Qed.

Lemma digest_bytes msg :
  length (SHA256.digest msg) = 32
  /\ Forall (fun b => 0 <= b < 256)%Z (SHA256.digest msg).
Proof.
  unfold SHA256.digest.
  destruct (fold_left _ _ _) as [[[[[[[a b] c] d] e] f] g] h].
  split.
  - cbn [map concat]. rewrite !length_app, !be_bytes_length. reflexivity.
  - apply List.Forall_concat, List.Forall_map, List.Forall_forall.
    intros x _. apply be_bytes_range.
Qed.

Lemma hex_digit_is_hex n : (0 <= n < 16)%Z -> is_hex (SHA256.hex_digit n) = true.
Proof.
  intros Hn.
  assert (Hcases : In n (seqZ 0 16)) by (apply list_elem_of_In, elem_of_seqZ; lia).
  clear Hn. vm_compute in Hcases.
  repeat (destruct Hcases as [<-|Hcases]; [reflexivity|]). contradiction.
Qed.

Lemma length_string_of_list_ascii l : String.length (string_of_list_ascii l) = length l.
Proof. induction l as [|c l IH]; cbn; congruence. Qed.

Lemma hexdigest_hex msg :
  String.length (SHA256.hexdigest msg) = 64
  /\ Forall (fun c => is_hex c = true) (list_ascii_of_string (SHA256.hexdigest msg)).
Proof.
  unfold SHA256.hexdigest. destruct (digest_bytes msg) as [Hlen Hrange].
  rewrite length_string_of_list_ascii, list_ascii_of_string_of_list_ascii.
  split.
  - transitivity (2 * length (SHA256.digest msg)); [|lia].
    clear. induction (SHA256.digest msg) as [|b l IH]; cbn in *; lia.
  - clear Hlen. induction Hrange as [|b l Hb _ IH]; cbn [map concat]; [constructor|].
    cbn [app]. constructor; [|constructor; [|exact IH]].
    + apply hex_digit_is_hex. split; [apply Z.div_pos; lia | apply Z.div_lt_upper_bound; lia].
    + apply hex_digit_is_hex. apply Z.mod_pos_bound. lia.
Qed.

(** [hash_password] returns 64 lowercase hexadecimal digits; a
    password of another length is therefore never stored as it is. *)
Theorem hash_password_hex password :
  String.length (hash_password password) = 64
  /\ Forall (fun c => is_hex c = true) (list_ascii_of_string (hash_password password))
  /\ (String.length password <> 64 -> hash_password password <> password).
Proof.
  destruct (hexdigest_hex (encode password)) as [Hlen Hhex].
  split; [exact Hlen|]. split; [exact Hhex|].
  intros Hne Heq. apply Hne. rewrite <- Heq at 1. exact Hlen.
Qed.

(** ** Registration and feedback *)

(** A username is registered once: after a registration the same
    username is refused whatever the password, nothing is written, and
    the first password stays the stored one. *)
Theorem register_user_once username password password' d d' :
  register_user username password d = Return (true, d') ->
  register_user username password' d' = Return (false, d')
  /\ stored_users d' !! username
     = Some {| password := hash_password password; role := "user" |}.
Proof.
  unfold register_user. rewrite load_users_cases.
  destruct (decodable (USER_DB d)); [|discriminate]. cbn [mbind py_bind].
  destruct (stored_users d !! username) eqn:Hu; [discriminate|].
  intros [= <-]. rewrite load_users_stored by done.
  cbn [mbind py_bind stored_users USER_DB]. rewrite lookup_insert_eq. done.
Qed.

Lemma register_user_once_witness :
  let d0 := {| USER_DB := Missing; FEEDBACK_DB := Missing |} in
  exists d', register_user "alice" "longpassword" d0 = Return (true, d')
    /\ register_user "alice" "another password" d' = Return (false, d').
Proof.
  intros d0. eexists. split; [reflexivity|].
  apply (register_user_once "alice" "longpassword" "another password" d0). reflexivity.
Defined.

Lemma length_slice_to n s : n <= String.length s -> String.length (slice_to n s) = n.
Proof.
  unfold slice_to. revert s. induction n as [|n IH]; intros [|c s]; cbn; try lia.
  intros Hn. rewrite IH; lia.
Qed.

Lemma slice_to_Forall (P : ascii -> Prop) n s :
  Forall P (list_ascii_of_string s) -> Forall P (list_ascii_of_string (slice_to n s)).
Proof.
  unfold slice_to. revert s. induction n as [|n IH]; intros [|c s]; cbn; try constructor.
  - by inversion H.
  - apply IH. by inversion H.
Qed.

(** What [save_feedback] reads. *)
Lemma save_feedback_reads d :
  try_except (f ← open_r (FEEDBACK_DB d); json_load f)
    is_FileNotFound_or_JSONDecode (Return [])
  = if decodable (FEEDBACK_DB d)
    then Return (stored_feedback d)
    else Raise UnicodeDecodeError.
Proof. unfold stored_feedback. by destruct (FEEDBACK_DB d). Qed.

Lemma save_feedback_undecodable analyze_sentiment now now_iso username feedback rating d :
  decodable (FEEDBACK_DB d) = false ->
  save_feedback analyze_sentiment now now_iso username feedback rating d
  = Raise UnicodeDecodeError.
Proof. intros Hd. unfold save_feedback. by rewrite save_feedback_reads, Hd. Qed.

(** What [save_feedback] writes. *)
Lemma save_feedback_stored analyze_sentiment now now_iso username feedback rating d :
  decodable (FEEDBACK_DB d) = true ->
  exists new,
    save_feedback analyze_sentiment now now_iso username feedback rating d
    = Return {| USER_DB := USER_DB d; FEEDBACK_DB := Stored (stored_feedback d ++ [new]) |}
    /\ fb_username new = username /\ fb_feedback new = feedback
    /\ fb_rating new = Some rating /\ fb_sentiment new = analyze_sentiment feedback
    /\ fb_timestamp new = now_iso /\ fb_visible new = Some true
    /\ String.length (fb_id new) = 8
    /\ Forall (fun c => is_hex c = true) (list_ascii_of_string (fb_id new)).
Proof.
  intros Hd. unfold save_feedback. rewrite save_feedback_reads, Hd. cbn [mbind py_bind].
  eexists. split; [reflexivity|].
  cbn [fb_username fb_feedback fb_rating fb_sentiment fb_timestamp fb_visible fb_id].
  destruct (hexdigest_hex (encode (username ++ now))) as [Hlen Hhex].
  repeat (split; [reflexivity|]). split.
  - apply length_slice_to. lia.
  - by apply slice_to_Forall.
Qed.

Lemma fill_visible_flagged f : is_Some (fb_visible f) -> fill_visible f = f.
Proof. unfold fill_visible. by intros [v ->]. Qed.

Lemma fill_visible_timestamp f : fb_timestamp (fill_visible f) = fb_timestamp f.
Proof. unfold fill_visible. by destruct (fb_visible f). Qed.

(** Where [load_feedback] returns, [save_feedback] returns as well
    and touches the feedback file only: it appends one record to the
    ones stored, or writes it alone over a file that is missing or is
    a text that is not JSON. [load_feedback] then returns what it
    returned before and the new record, which carries the arguments,
    the second reading of the clock, [visible = True] and an id of 8
    hexadecimal digits. Where [load_feedback] raises, on a file that
    is not a text, [save_feedback] raises [UnicodeDecodeError] too,
    before it writes. *)
Theorem save_feedback_appends analyze_sentiment now now_iso username feedback rating d :
  (forall old,
      load_feedback d = Return old ->
      exists d' new,
        save_feedback analyze_sentiment now now_iso username feedback rating d = Return d'
        /\ USER_DB d' = USER_DB d
        /\ stored_feedback d' = stored_feedback d ++ [new]
        /\ load_feedback d' = Return (old ++ [new])
        /\ fb_username new = username /\ fb_feedback new = feedback
        /\ fb_rating new = Some rating /\ fb_sentiment new = analyze_sentiment feedback
        /\ fb_timestamp new = now_iso /\ fb_visible new = Some true
        /\ String.length (fb_id new) = 8
        /\ Forall (fun c => is_hex c = true) (list_ascii_of_string (fb_id new)))
  /\ (decodable (FEEDBACK_DB d) = false ->
      load_feedback d = Raise UnicodeDecodeError
      /\ save_feedback analyze_sentiment now now_iso username feedback rating d
         = Raise UnicodeDecodeError).
Proof.
  split.
  - intros old Hload. apply load_feedback_returns in Hload as [Hd ->].
    destruct (save_feedback_stored analyze_sentiment now now_iso username feedback rating d Hd)
      as (new & Hsave & Hfields).
    eexists. exists new. split; [exact Hsave|]. split; [reflexivity|]. split; [reflexivity|].
    split; [|exact Hfields].
    rewrite load_feedback_stored by done. cbn [stored_feedback FEEDBACK_DB].
    rewrite map_app. cbn [map]. rewrite fill_visible_flagged; [done|].
    destruct Hfields as (_ & _ & _ & _ & _ & -> & _). eauto.
  - intros Hd. split; [by rewrite load_feedback_cases, Hd|].
    by apply save_feedback_undecodable.
Qed.

Lemma save_feedback_appends_witness :
  let d := {| USER_DB := Missing; FEEDBACK_DB := Malformed |} in
  let d0 := {| USER_DB := Missing; FEEDBACK_DB := Undecodable |} in
  (exists d' new,
      save_feedback (fun _ => (0.5, 0.5)%float) "2025-03-01 10:00:00.000100"
        "2025-03-01T10:00:00.000200" "alice" "Great tool!" 5 d = Return d'
      /\ USER_DB d' = USER_DB d
      /\ stored_feedback d' = stored_feedback d ++ [new]
      /\ load_feedback d' = Return ([] ++ [new])
      /\ fb_username new = "alice" /\ fb_feedback new = "Great tool!"
      /\ fb_rating new = Some 5%Z /\ fb_sentiment new = (0.5, 0.5)%float
      /\ fb_timestamp new = "2025-03-01T10:00:00.000200" /\ fb_visible new = Some true
      /\ String.length (fb_id new) = 8
      /\ Forall (fun c => is_hex c = true) (list_ascii_of_string (fb_id new)))
  /\ load_feedback d0 = Raise UnicodeDecodeError
  /\ save_feedback (fun _ => (0.5, 0.5)%float) "2025-03-01 10:00:00.000100"
       "2025-03-01T10:00:00.000200" "alice" "Great tool!" 5 d0 = Raise UnicodeDecodeError.
Proof.
  intros d d0. split.
  - apply (proj1 (save_feedback_appends (fun _ => (0.5, 0.5)%float)
                    "2025-03-01 10:00:00.000100" "2025-03-01T10:00:00.000200"
                    "alice" "Great tool!" 5 d) []).
    reflexivity.
  - apply (proj2 (save_feedback_appends (fun _ => (0.5, 0.5)%float)
                    "2025-03-01 10:00:00.000100" "2025-03-01T10:00:00.000200"
                    "alice" "Great tool!" 5 d0)).
    reflexivity.
Defined.

(** ** Conversion history *)

(** [conversion_history] lists the last five entries, the newest
    first: the first five of the reversed history. An entry just
    appended heads the list. *)
Theorem conversion_history_newest history :
  conversion_history history = take 5 (rev history)
  /\ length (conversion_history history) = Nat.min 5 (length history)
  /\ forall e, head (conversion_history (history ++ [e])) = Some e.
Proof.
  assert (Hrev : forall h : list entry, conversion_history h = take 5 (rev h)).
  { intros h. unfold conversion_history. symmetry. apply firstn_rev. }
  split; [apply Hrev|]. split.
  - rewrite Hrev, length_take, length_rev. reflexivity.
  - intros e. rewrite Hrev, rev_app_distr. reflexivity.
Qed.

(** ** Sorting by any key *)

Section StableSortBy.
Context {A K : Type} (lt eqb : K -> K -> bool).
Implicit Types (x y : K * A) (l : list (K * A)).

Lemma insert_sorted_Permutation x l : Permutation (insert_sorted lt x l) (x :: l).
Proof.
  induction l as [|y l IH]; cbn; [done|].
  destruct (lt y.1 x.1); [|done].
  rewrite IH. apply perm_swap.
Qed.

Lemma stable_sort_Permutation l : Permutation (stable_sort lt l) l.
Proof.
  induction l as [|x l IH]; cbn; [done|].
  rewrite insert_sorted_Permutation. by constructor.
Qed.

Context (lt_asym : forall a b, lt a b = true -> lt b a = false).
Context (le_trans : forall a b c, lt b a = false -> lt c b = false -> lt c a = false).
Context (eqb_eq : forall a b, eqb a b = true -> a = b).

Lemma insert_sorted_ordered x l :
  StronglySorted (key_not_after lt) l ->
  StronglySorted (key_not_after lt) (insert_sorted lt x l).
Proof.
  induction 1 as [|y l Hl IH Hy]; cbn.
  - repeat constructor.
  - destruct (lt y.1 x.1) eqn:Hlt.
    + constructor; [exact IH|].
      rewrite insert_sorted_Permutation. constructor; [by apply lt_asym | exact Hy].
    + constructor; [by constructor|].
      constructor; [exact Hlt|].
      eapply List.Forall_impl; [|exact Hy]. intros z Hz. exact (le_trans _ _ _ Hlt Hz).
Qed.

Lemma stable_sort_ordered l : StronglySorted (key_not_after lt) (stable_sort lt l).
Proof.
  induction l as [|x l IH]; cbn; [constructor|].
  by apply insert_sorted_ordered.
Qed.

Lemma insert_sorted_keeps_order k x l :
  List.filter (fun p => eqb p.1 k) (insert_sorted lt x l)
  = List.filter (fun p => eqb p.1 k) (x :: l).
Proof.
  induction l as [|y l IH]; [done|].
  cbn [insert_sorted]. destruct (lt y.1 x.1) eqn:Hlt; [|done].
  cbn [List.filter] in *. rewrite IH.
  destruct (eqb y.1 k) eqn:Hy, (eqb x.1 k) eqn:Hx; try done.
  apply eqb_eq in Hy, Hx. rewrite Hy, Hx in Hlt.
  by rewrite (lt_asym _ _ Hlt) in Hlt.
Qed.

Lemma stable_sort_keeps_order k l :
  List.filter (fun p => eqb p.1 k) (stable_sort lt l) = List.filter (fun p => eqb p.1 k) l.
Proof.
  induction l as [|x l IH]; [done|].
  cbn [stable_sort]. rewrite insert_sorted_keeps_order. cbn [List.filter].
  by rewrite IH.
Qed.

Context (key : A -> py K) (k : A -> K).

Lemma with_keys_paired (l : list A) :
  Forall (fun a => key a = Return (k a)) l -> with_keys key l = Return (paired k l).
Proof.
  induction 1 as [|a l Ha _ IH]; cbn; [done|].
  rewrite Ha. cbn. rewrite IH. reflexivity.
Qed.

Lemma paired_snd (l : list A) : map snd (paired k l) = l.
Proof. unfold paired. rewrite map_map. cbn. apply map_id. Qed.

Lemma paired_of_pairs (s : list (K * A)) :
  Forall (fun p => p.1 = k p.2) s -> s = paired k (map snd s).
Proof.
  induction 1 as [|[z a] s Hp _ IH]; [done|].
  cbn in Hp. subst z. cbn [map snd]. unfold paired in *. cbn [map]. by rewrite <- IH.
Qed.

Lemma paired_pairs (l : list A) : Forall (fun p => p.1 = k p.2) (paired k l).
Proof. unfold paired. apply List.Forall_map. by apply List.Forall_forall. Qed.

Lemma paired_sorted (R : K -> K -> Prop) (l : list A) :
  StronglySorted (fun p q : K * A => R p.1 q.1) (paired k l) ->
  StronglySorted (fun a b => R (k a) (k b)) l.
Proof.
  induction l as [|a l IH]; cbn; intros H; [constructor|].
  inversion_clear H as [|? ? Hl Ha]. constructor; [by apply IH|].
  unfold paired in Ha. rewrite List.Forall_map in Ha. exact Ha.
Qed.

Lemma paired_filter r (l : list A) :
  map snd (List.filter (fun p => eqb p.1 r) (paired k l))
  = List.filter (fun a => eqb (k a) r) l.
Proof.
  induction l as [|a l IH]; [done|].
  unfold paired in *. cbn [map List.filter]. cbn [fst].
  destruct (eqb (k a) r); cbn [map snd]; by rewrite IH.
Qed.

(** [l.sort(key=key, reverse=True)] when no call of [key] raises, for
    keys of any type that [<] orders: the same elements, none before
    one of a greater key, those of equal key in the order they had. *)
Lemma list_sort_reverse_by (l : list A) :
  Forall (fun a => key a = Return (k a)) l ->
  exists out,
    list_sort lt key true l = Return out
    /\ Permutation out l
    /\ StronglySorted (fun a b => lt (k a) (k b) = false) out
    /\ forall r, List.filter (fun a => eqb (k a) r) out
                 = List.filter (fun a => eqb (k a) r) l.
Proof.
  intros Hkey. unfold list_sort. rewrite (with_keys_paired _ Hkey). cbn [mbind py_bind].
  set (s := rev (stable_sort lt (rev (paired k l)))).
  assert (Hperm : Permutation s (paired k l)).
  { unfold s. rewrite <- Permutation_rev, stable_sort_Permutation.
    symmetry. apply Permutation_rev. }
  assert (Hs : s = paired k (map snd s)).
  { apply paired_of_pairs. eapply Permutation_Forall; [symmetry; exact Hperm|].
    apply paired_pairs. }
  exists (map snd s). split; [reflexivity|]. split; [|split].
  - transitivity (map snd (paired k l)); [by apply Permutation_map | by rewrite paired_snd].
  - apply (paired_sorted (fun a b => lt a b = false)). rewrite <- Hs.
    unfold s. apply (StronglySorted_rev (key_not_after lt)). apply stable_sort_ordered.
  - intros r. rewrite <- !paired_filter, <- Hs. unfold s.
    rewrite filter_rev, stable_sort_keeps_order, filter_rev, rev_involutive. reflexivity.
Qed.
End StableSortBy.

(** ** The order of strings *)

Lemma string_ltb_asym a b : String.ltb a b = true -> String.ltb b a = false.
Proof.
  unfold String.ltb. rewrite (String.compare_antisym b a).
  by destruct (String.compare a b).
Qed.

Lemma string_compare_trans a b c :
  String.compare a b = Lt -> String.compare b c = Lt -> String.compare a c = Lt.
Proof.
  rewrite !(OrderedTypeEx.String_as_OT.cmp_lt). apply OrderedTypeEx.String_as_OT.lt_trans.
Qed.

Lemma string_leb_trans a b c :
  String.ltb b a = false -> String.ltb c b = false -> String.ltb c a = false.
Proof.
  unfold String.ltb. intros Hab Hbc.
  destruct (String.compare c a) eqn:Hca; try reflexivity. exfalso.
  destruct (String.compare b a) eqn:Hba; [|discriminate|].
  - apply String.compare_eq_iff in Hba. subst b. by rewrite Hca in Hbc.
  - destruct (String.compare c b) eqn:Hcb; [|discriminate|].
    + apply String.compare_eq_iff in Hcb. subst c. congruence.
    + rewrite String.compare_antisym in Hba, Hcb.
      apply CompOpp_iff in Hba, Hcb. cbn in Hba, Hcb.
      pose proof (string_compare_trans _ _ _ Hba Hcb) as Hac.
      rewrite String.compare_antisym, Hca in Hac. discriminate.
Qed.

(** ** Reviews, newest first *)

Lemma review_section_filter min_rating sort_order d feedbacks :
  (1 <= min_rating)%Z ->
  load_feedback d = Return feedbacks ->
  let l := List.filter (selected min_rating) feedbacks in
  review_section min_rating sort_order d
  = if String.eqb sort_order "Highest Rating"
    then list_sort Z.ltb rating_key true l
    else list_sort String.ltb timestamp_key true l.
Proof.
  intros Hmin Hload l. unfold review_section. rewrite Hload. cbn [mbind py_bind].
  rewrite (filter_ext _ _ (fun f => shown_selected min_rating f Hmin)). fold l.
  destruct feedbacks; [|reflexivity]. by destruct (String.eqb _ _).
Qed.

Lemma selected_rated min_rating feedbacks :
  Forall (fun f => rating_key f = Return (default 0%Z (fb_rating f)))
         (List.filter (selected min_rating) feedbacks).
Proof.
  apply List.Forall_forall. intros f Hf. apply filter_In in Hf as [_ Hf].
  unfold selected, rating_at_least in Hf. unfold rating_key.
  destruct (fb_rating f); [done|]. by rewrite andb_false_r in Hf.
Qed.

(** With another choice than "Highest Rating" (the select box has
    "Newest First") and a minimum rating from 1 up, [review_section]
    shows exactly the loaded records that are visible and rate at
    least the minimum, none before one of a greater timestamp, those
    of equal timestamp in the order of the file. *)
Theorem review_section_newest_first min_rating sort_order d feedbacks :
  (1 <= min_rating)%Z ->
  sort_order <> "Highest Rating" ->
  load_feedback d = Return feedbacks ->
  exists out,
    review_section min_rating sort_order d = Return out
    /\ Permutation out (List.filter (selected min_rating) feedbacks)
    /\ StronglySorted not_older out
    /\ forall t, List.filter (has_timestamp t) out
                 = List.filter (has_timestamp t) (List.filter (selected min_rating) feedbacks).
Proof.
  intros Hmin Horder Hload.
  rewrite (review_section_filter _ _ _ _ Hmin Hload). cbv zeta.
  destruct (String.eqb_spec sort_order "Highest Rating") as [|_]; [done|].
  apply (list_sort_reverse_by String.ltb String.eqb string_ltb_asym string_leb_trans
           (fun a b => proj1 (String.eqb_eq a b)) timestamp_key fb_timestamp).
  by apply List.Forall_forall.
Qed.

Lemma review_section_newest_first_witness :
  let feedbacks := map fill_visible (stored_feedback example_disk) in
  exists out,
    review_section 3 "Newest First" example_disk = Return out
    /\ Permutation out (List.filter (selected 3) feedbacks)
    /\ StronglySorted not_older out
    /\ forall t, List.filter (has_timestamp t) out
                 = List.filter (has_timestamp t) (List.filter (selected 3) feedbacks).
Proof.
  intros feedbacks.
  apply (review_section_newest_first 3 "Newest First" example_disk feedbacks);
    [lia | discriminate | reflexivity].
Defined.

(** A feedback that is saved, to a feedback file [save_feedback] can
    read, shows in the reviews under every minimum rating up to its
    own, in both orders; with a timestamp after all the stored ones it
    comes first when the order is not "Highest Rating". *)
Theorem saved_feedback_reviewed analyze_sentiment now now_iso username feedback rating
    min_rating sort_order d :
  decodable (FEEDBACK_DB d) = true ->
  (1 <= min_rating <= rating)%Z ->
  exists d' new out,
    save_feedback analyze_sentiment now now_iso username feedback rating d = Return d'
    /\ stored_feedback d' = stored_feedback d ++ [new]
    /\ review_section min_rating sort_order d' = Return out
    /\ In new out
    /\ (sort_order <> "Highest Rating" ->
        Forall (fun f => String.ltb (fb_timestamp f) now_iso = true) (stored_feedback d) ->
        head out = Some new).
Proof.
  intros Hd Hmin.
  destruct (save_feedback_stored analyze_sentiment now now_iso username feedback rating d Hd)
    as (new & Hsave & _ & _ & Hrating & _ & Hts & Hvisible & _).
  assert (Hnew : fill_visible new = new) by (apply fill_visible_flagged; rewrite Hvisible; eauto).
  assert (Hsel : selected min_rating new = true).
  { unfold selected, visible, rating_at_least. rewrite Hvisible, Hrating. cbn.
    apply Z.leb_le. lia. }
  set (d' := {| USER_DB := USER_DB d; FEEDBACK_DB := Stored (stored_feedback d ++ [new]) |})
    in *.
  assert (Hload : load_feedback d' = Return (map fill_visible (stored_feedback d) ++ [new])).
  { rewrite load_feedback_stored by done. cbn [d' stored_feedback FEEDBACK_DB].
    rewrite map_app. cbn [map]. by rewrite Hnew. }
  pose proof (review_section_filter min_rating sort_order d' _ ltac:(lia) Hload) as Hrev.
  cbv zeta in Hrev.
  assert (Hin : In new (List.filter (selected min_rating)
                          (map fill_visible (stored_feedback d) ++ [new]))).
  { apply filter_In. split; [apply in_or_app; right; by left | exact Hsel]. }
  exists d', new.
  destruct (String.eqb_spec sort_order "Highest Rating") as [->|Horder].
  - destruct (list_sort_reverse rating_key _ _
                (selected_rated min_rating (map fill_visible (stored_feedback d) ++ [new])))
      as (out & Hout & Hperm & _).
    exists out. split; [exact Hsave|]. split; [reflexivity|].
    split; [by rewrite Hrev|]. split; [|done].
    eapply Permutation_in; [symmetry; exact Hperm | exact Hin].
  - destruct (list_sort_reverse_by String.ltb String.eqb string_ltb_asym string_leb_trans
                (fun a b => proj1 (String.eqb_eq a b)) timestamp_key fb_timestamp
                (List.filter (selected min_rating)
                   (map fill_visible (stored_feedback d) ++ [new])))
      as (out & Hout & Hperm & Hsorted & _); [by apply List.Forall_forall|].
    exists out. split; [exact Hsave|]. split; [reflexivity|].
    split; [by rewrite Hrev|].
    assert (Hnew_out : In new out).
    { eapply Permutation_in; [symmetry; exact Hperm | exact Hin]. }
    split; [exact Hnew_out|]. intros _ Holder.
    destruct out as [|first rest]; [done|]. cbn [head]. f_equal.
    destruct Hnew_out as [Heq|Hrest]; [exact Heq|].
    inversion_clear Hsorted as [|? ? _ Hfirst].
    rewrite List.Forall_forall in Hfirst. specialize (Hfirst new Hrest).
    unfold not_older in Hfirst.
    assert (Hfirst_in : In first (List.filter (selected min_rating)
                                    (map fill_visible (stored_feedback d) ++ [new]))).
    { eapply Permutation_in; [exact Hperm | by left]. }
    apply filter_In in Hfirst_in as [Hfirst_in _].
    apply in_app_or in Hfirst_in as [Hold|[Heq|[]]]; [|done].
    apply in_map_iff in Hold as (f & <- & Hf).
    rewrite List.Forall_forall in Holder. specialize (Holder f Hf).
    rewrite fill_visible_timestamp, Hts in Hfirst. congruence.
Qed.

Lemma saved_feedback_reviewed_witness :
  exists d' new out,
    save_feedback (fun _ => (0.5, 0.5)%float) "2025-03-02 09:00:00.000100"
      "2025-03-02T09:00:00.000200" "bob" "Works well" 4 example_disk = Return d'
    /\ stored_feedback d' = stored_feedback example_disk ++ [new]
    /\ review_section 3 "Newest First" d' = Return out
    /\ In new out
    /\ ("Newest First" <> "Highest Rating" ->
        Forall (fun f => String.ltb (fb_timestamp f) "2025-03-02T09:00:00.000200" = true)
               (stored_feedback example_disk) ->
        head out = Some new).
Proof.
  apply (saved_feedback_reviewed (fun _ => (0.5, 0.5)%float) _ _ "bob" "Works well" 4 3
           "Newest First" example_disk).
  - reflexivity.
  - lia.
Defined.

(** ** Admin panel *)

Lemma user_eta (u : user) : {| password := password u; role := role u |} = u.
Proof. by destruct u. Qed.

Lemma set_roles_Return rows users users' name :
  set_roles rows users = Return users' ->
  password <$> users' !! name = password <$> users !! name
  /\ (~ In name (map fst rows) -> users' !! name = users !! name).
Proof.
  revert users. induction rows as [|[n r] rows IH]; intros users; cbn [set_roles].
  - by intros [= <-].
  - destruct (users !! n) as [u|] eqn:Hn; [|discriminate].
    intros Hrest. destruct (IH _ Hrest) as [Hpw Hother]. split.
    + rewrite Hpw. destruct (decide (name = n)) as [->|Hne].
      * by rewrite lookup_insert_eq, Hn.
      * by rewrite lookup_insert_ne.
    + cbn [map fst In]. intros Hnot. rewrite Hother by tauto.
      apply lookup_insert_ne. intros ->. tauto.
Qed.

Lemma set_roles_Raise rows users e :
  set_roles rows users = Raise e ->
  exists name, e = KeyError name /\ In name (map fst rows) /\ users !! name = None.
Proof.
  revert users. induction rows as [|[n r] rows IH]; intros users; cbn [set_roles];
    [discriminate|].
  destruct (users !! n) as [u|] eqn:Hn.
  - intros Hrest. destruct (IH _ Hrest) as (name & -> & Hin & Hnone).
    exists name. split; [done|]. split; [by right|].
    destruct (decide (name = n)) as [->|Hne].
    + by rewrite lookup_insert_eq in Hnone.
    + by rewrite lookup_insert_ne in Hnone.
  - intros [= <-]. exists n. split; [done|]. split; [by left | done].
Qed.

Lemma set_roles_known rows users :
  Forall (fun row => is_Some (users !! row.1)) rows ->
  exists users', set_roles rows users = Return users'.
Proof.
  intros Hknown. destruct (set_roles rows users) as [users'|e] eqn:Hset; [eauto|].
  apply set_roles_Raise in Hset as (name & _ & Hin & Hnone).
  apply in_map_iff in Hin as (row & <- & Hrow).
  rewrite List.Forall_forall in Hknown. apply Hknown in Hrow as [u Hu]. congruence.
Qed.

Lemma set_roles_assigned rows users users' name r :
  set_roles rows users = Return users' ->
  NoDup (map fst rows) -> In (name, r) rows ->
  role <$> users' !! name = Some r.
Proof.
  revert users. induction rows as [|[n r'] rows IH]; intros users; cbn [set_roles];
    [by intros _ _ []|].
  destruct (users !! n) as [u|] eqn:Hn; [|discriminate].
  cbn [map fst]. intros Hrest Hdup Hin. apply NoDup_cons in Hdup.
  destruct Hdup as [Hfresh Hdup]. rewrite list_elem_of_In in Hfresh.
  destruct Hin as [[= -> ->]|Hin]; [|by eapply IH].
  destruct (set_roles_Return _ _ _ name Hrest) as [_ Hother].
  rewrite Hother by done. by rewrite lookup_insert_eq.
Qed.

Lemma set_roles_unedited rows users :
  Forall (fun row => exists u, users !! row.1 = Some u /\ role u = row.2) rows ->
  set_roles rows users = Return users.
Proof.
  induction 1 as [|[n r] rows (u & Hu & Hr) _ IH]; cbn [set_roles]; [done|].
  cbn in Hu, Hr. rewrite Hu, <- Hr, user_eta, insert_id by done. exact IH.
Qed.


(** For the session of [ADMIN_USER] and a table that names stored
    users, each one once, saving gives every user of the table the
    role of its row; a table that shows the stored roles changes no
    user. The users file is one that [load_users] reads or takes for
    empty. *)
Theorem admin_panel_assigns st edited d :
  decodable (USER_DB d) = true ->
  is_admin st = true ->
  Forall (fun row => is_Some (stored_users d !! row.1)) edited ->
  exists d',
    admin_panel st edited d = Return d'
    /\ (NoDup (map fst edited) ->
        forall name r, In (name, r) edited -> role <$> stored_users d' !! name = Some r)
    /\ (Forall (fun row => role <$> stored_users d !! row.1 = Some row.2) edited ->
        stored_users d' = stored_users d).
Proof.
  intros Hd Hadmin Hknown. unfold admin_panel. rewrite Hadmin, load_users_stored by done.
  cbn [mbind py_bind].
  destruct (set_roles_known _ _ Hknown) as [users' Hset]. rewrite Hset.
  eexists. split; [reflexivity|]. cbn [stored_users USER_DB]. split.
  - intros Hdup name r Hin. by eapply set_roles_assigned.
  - intros Hsame. rewrite set_roles_unedited in Hset; [by injection Hset|].
    eapply List.Forall_impl; [|exact Hsame]. intros row Hrow. cbn in Hrow.
    destruct (stored_users d !! row.1) as [u|]; [|done].
    exists u. split; [done|]. by injection Hrow.
Qed.

Lemma admin_panel_assigns_witness :
  let alice := {| password := hash_password "longpassword"; role := "user" |} in
  let d := {| USER_DB := Stored {[ "alice" := alice ]}; FEEDBACK_DB := Missing |} in
  let st := {| authenticated := true; username := Some ADMIN_USER |} in
  exists d',
    admin_panel st [("alice", "admin")] d = Return d'
    /\ (NoDup (map fst [("alice", "admin")]) ->
        forall name r, In (name, r) [("alice", "admin")] ->
                       role <$> stored_users d' !! name = Some r)
    /\ (Forall (fun row => role <$> stored_users d !! row.1 = Some row.2)
               [("alice", "admin")] ->
        stored_users d' = stored_users d).
Proof.
  intros alice d st. apply (admin_panel_assigns st [("alice", "admin")] d).
  - reflexivity.
  - reflexivity.
  - repeat constructor. by exists alice.
Defined.

(** ** Runs of the application *)

Lemma keeps_refl d : keeps d d.
Proof. split; [eauto|]. exists []. by rewrite app_nil_r. Qed.

Lemma keeps_trans d1 d2 d3 : keeps d1 d2 -> keeps d2 d3 -> keeps d1 d3.
Proof.
  intros [Hu12 [a12 Hf12]] [Hu23 [a23 Hf23]]. split.
  - intros name u Hu. destruct (Hu12 _ _ Hu) as (u' & Hu' & Hpw).
    destruct (Hu23 _ _ Hu') as (u'' & Hu'' & Hpw'). exists u''. split; congruence.
  - exists (a12 ++ a23). by rewrite Hf23, Hf12, <- app_assoc.
Qed.

(** A disk with the same feedback and all the users of another. *)
Lemma keeps_users d d' :
  FEEDBACK_DB d' = FEEDBACK_DB d ->
  (forall name u, stored_users d !! name = Some u -> stored_users d' !! name = Some u) ->
  keeps d d'.
Proof.
  intros Hf Hu. split; [eauto|]. exists []. unfold stored_feedback. by rewrite Hf, app_nil_r.
Qed.

Lemma authenticate_user_cases username pw d r :
  authenticate_user username pw d = Return r ->
  r = None \/ exists u, r = Some u /\ stored_users d !! username = Some u.
Proof.
  unfold authenticate_user. rewrite load_users_cases.
  destruct (decodable (USER_DB d)); [|done]. cbn [mbind py_bind].
  destruct (stored_users d !! username) as [[stored role]|]; [|intros [= <-]; by left].
  destruct (String.eqb stored (hash_password pw)); intros [= <-]; [right; eauto | by left].
Qed.

(** The form of [login_section], where it does not raise, removes
    nothing, changes no stored user, and leaves the session as it is
    or, for a stored username, logged in under it. *)
Lemma login_section_effect pressed username pw st d msg st' d' :
  login_section pressed username pw st d = Return (msg, st', d') ->
  FEEDBACK_DB d' = FEEDBACK_DB d
  /\ (forall name u, stored_users d !! name = Some u -> stored_users d' !! name = Some u)
  /\ (st' = st
      \/ st' = {| authenticated := true; username := Some username |}
         /\ is_Some (stored_users d' !! username)).
Proof.
  destruct pressed; cbn [login_section].
  - destruct (authenticate_user username pw d) as [r|e] eqn:Hauth; [|done].
    apply authenticate_user_cases in Hauth as [->|(u & -> & Hu)];
      cbn [mbind py_bind]; intros [= <- <- <-]; (split; [done|]); (split; [done|]);
      [by left | right; eauto].
  - destruct (8 <=? len pw)%nat; [|intros [= <- <- <-]; by repeat split; eauto].
    unfold register_user. rewrite load_users_cases.
    destruct (decodable (USER_DB d)); [|done]. cbn [mbind py_bind].
    destruct (stored_users d !! username) eqn:Hfree; cbn [mbind py_bind fst snd];
      intros [= <- <- <-]; (split; [done|]); (split; [|by left]); [done|].
    intros name u Hu. cbn [stored_users USER_DB snd]. rewrite lookup_insert_ne; [done|].
    intros <-. congruence.
Qed.

Lemma admin_panel_effect st edited d d' :
  admin_panel st edited d = Return d' ->
  FEEDBACK_DB d' = FEEDBACK_DB d
  /\ forall name,
       password <$> stored_users d' !! name = password <$> stored_users d !! name
       /\ (~ In name (map fst edited) -> stored_users d' !! name = stored_users d !! name).
Proof.
  unfold admin_panel. rewrite load_users_cases.
  destruct (is_admin st); [|by intros [= <-]].
  destruct (decodable (USER_DB d)); [|done]. cbn [mbind py_bind].
  destruct (set_roles edited (stored_users d)) as [users'|e'] eqn:Hset;
    cbn [mbind py_bind]; [|done].
  intros [= <-]. split; [reflexivity|]. intros name.
  cbn [stored_users USER_DB]. by apply set_roles_Return.
Qed.

Lemma admin_panel_keeps st edited d d' : admin_panel st edited d = Return d' -> keeps d d'.
Proof.
  intros Hsave. destruct (admin_panel_effect _ _ _ _ Hsave) as [Hf Hu]. split.
  - intros name u Hname. destruct (Hu name) as [Hpw _]. rewrite Hname in Hpw.
    destruct (stored_users d' !! name) as [u'|]; [|done].
    exists u'. split; [done|]. by injection Hpw.
  - exists []. unfold stored_feedback. by rewrite Hf, app_nil_r.
Qed.

(** ** Runs of the application, case by case *)

(** The cases of the run in [H], with the tests the run passed. *)
Ltac run_cases H :=
  unfold main in H; cbv zeta in H;
  destruct (authenticated (session _)) eqn:Hauth; cbn [negb] in H;
  try match type of H with
      | context [match ?ev with AUTH _ _ _ => _ | _ => _ end] => destruct ev
      end;
  try discriminate;
  try match type of H with
      | (if ?guard then _ else None) = _ =>
          destruct guard eqn:Hguard; [|discriminate]
      end;
  try match type of H with
      | context [username ?st ≫= _] =>
          destruct (username st) as [user|] eqn:Huser; [|discriminate];
          cbn [mbind option_bind] in H
      end;
  try match type of H with
      | context [reviews_render ?f ?m ?o ?d] =>
          destruct (reviews_render f m o d) eqn:Hrender
      end.

Ltac unfold_run := cbn [run].
Ltac unfold_main := unfold main.

(** The effect of the form that [H] submits: where it returns, and
    where it raises. *)
Ltac login_effect H :=
  match type of H with
  | context [login_section ?p ?u ?w ?st ?d] =>
      destruct (login_section p u w st d) as [[[msg st'] d']|e] eqn:Heq;
      cbn in H; injection H as <-;
      [destruct (login_section_effect _ _ _ _ _ _ _ _ Heq) as (Hf & Hu & Hst)|]
  end.

Section Runs.
Context (analyze_sentiment : string -> float * float).
Context (format_value format_6e : float -> string).
Context (fromisoformat : string -> bool).

#[local] Abbreviation main := (main analyze_sentiment format_value format_6e fromisoformat).
#[local] Abbreviation run := (run analyze_sentiment format_value format_6e fromisoformat).

Lemma feedback_section_effect st user feedback rating now now_iso d msg d' :
  feedback_section analyze_sentiment st user feedback rating now now_iso d
  = Return (msg, d') ->
  USER_DB d' = USER_DB d
  /\ exists added, stored_feedback d' = stored_feedback d ++ added.
Proof.
  unfold feedback_section. destruct (authenticated st).
  - destruct (decodable (FEEDBACK_DB d)) eqn:Hd.
    + destruct (save_feedback_stored analyze_sentiment now now_iso user feedback rating d Hd)
        as (new & -> & _). cbn [mbind py_bind].
      intros [= <- <-]. split; [reflexivity|]. by exists [new].
    + by rewrite save_feedback_undecodable.
  - intros [= <- <-]. split; [reflexivity|]. exists []. by rewrite app_nil_r.
Qed.

(** A run removes nothing from the disk. *)
Lemma main_keeps ev s s' : main ev s = Some s' -> keeps (files s) (files s').
Proof.
  intros H. run_cases H.
  - injection H as <-. apply keeps_refl.
  - injection H as <-. apply keeps_refl.
  - destruct (convert_button _ _ _ _ _ _ _ _) as [[msg h]|e];
      cbn in H; injection H as <-; apply keeps_refl.
  - destruct (feedback_section _ _ _ _ _ _ _ _) as [[msg d']|e] eqn:Heq;
      cbn in H; injection H as <-; [|apply keeps_refl].
    apply feedback_section_effect in Heq as [Hu Hadded]. split; [|exact Hadded].
    intros name u Hname. exists u. split; [|done].
    cbn [files]. unfold stored_users in *. by rewrite Hu.
  - injection H as <-. apply keeps_refl.
  - destruct (admin_panel _ _ _) as [d'|e] eqn:Hsave; cbn in H; injection H as <-.
    + by eapply admin_panel_keeps.
    + apply keeps_refl.
  - injection H as <-. apply keeps_refl.
  - login_effect H; [by apply keeps_users | apply keeps_refl].
Qed.

(** Nothing is ever deleted: whatever the users of a session do, from
    any state, the disk keeps every stored user with its password and
    every stored feedback, in order, before the ones added. *)
Theorem run_keeps evs s s' : run evs s = Some s' -> keeps (files s) (files s').
Proof.
  revert s. induction evs as [|ev evs IH]; intros s; unfold_run.
  - intros [= <-]. apply keeps_refl.
  - destruct (main ev s) as [s1|] eqn:Hmain; [|discriminate].
    intros Hrun. eapply keeps_trans; [by eapply main_keeps | by apply IH].
Qed.

Lemma main_session_ok ev s s' : session_ok s -> main ev s = Some s' -> session_ok s'.
Proof.
  intros [Hiff Hstored] H. pose proof (main_keeps _ _ _ H) as [Hkept _].
  assert (Hsame : session s' = session s -> session_ok s').
  { intros Hs. unfold session_ok. rewrite Hs. split; [exact Hiff|].
    intros user Huser. destruct (Hstored _ Huser) as [u Hu].
    destruct (Hkept _ _ Hu) as (u' & -> & _). eauto. }
  run_cases H.
  - injection H as <-. by apply Hsame.
  - injection H as <-. split; cbn; [|done]. split; [done | by intros [? ?]].
  - destruct (convert_button _ _ _ _ _ _ _ _) as [[msg h]|e];
      cbn in H; injection H as <-; by apply Hsame.
  - destruct (feedback_section _ _ _ _ _ _ _ _) as [[msg d']|e];
      cbn in H; injection H as <-; by apply Hsame.
  - injection H as <-. by apply Hsame.
  - destruct (admin_panel _ _ _) as [d'|e]; cbn in H; injection H as <-; by apply Hsame.
  - injection H as <-. by apply Hsame.
  - login_effect H; [|by apply Hsame].
    destruct Hst as [->|[-> Hknown]]; [by apply Hsame|].
    split; cbn; [|by intros user [= <-]]. split; [eauto | done].
Qed.

(** In every state a session reaches, [authenticated] is set exactly
    when the username is, and the username is that of a stored user. *)
Theorem session_invariant evs d s : run evs (initial d) = Some s -> session_ok s.
Proof.
  assert (Hinit : session_ok (initial d)).
  { split; cbn; [|done]. split; [done | by intros [? ?]]. }
  revert Hinit. generalize (initial d) as s0. induction evs as [|ev evs IH]; intros s0 Hok;
    unfold_run.
  - by intros [= <-].
  - destruct (main ev s0) as [s1|] eqn:Hmain; [|discriminate].
    apply IH. by eapply main_session_ok.
Qed.

(** A stored user changes in no run but one that saves in the admin
    panel, in the session of [ADMIN_USER], with the user in the
    table. *)
Theorem users_changed_by_admin ev s s' name u u' :
  main ev s = Some s' ->
  stored_users (files s) !! name = Some u ->
  stored_users (files s') !! name = Some u' ->
  u' <> u ->
  username (session s) = Some ADMIN_USER
  /\ exists min_rating sort_order edited,
       ev = SAVE_ROLES min_rating sort_order edited /\ In name (map fst edited).
Proof.
  intros H Hold Hnew Hne.
  assert (Hsame : files s' = files s -> False) by (intros Hs; congruence).
  assert (Husers : USER_DB (files s') = USER_DB (files s) -> False).
  { intros Hs. unfold stored_users in Hold, Hnew. rewrite Hs in Hnew. congruence. }
  run_cases H.
  - exfalso. injection H as <-. by apply Hsame.
  - exfalso. injection H as <-. by apply Hsame.
  - exfalso. destruct (convert_button _ _ _ _ _ _ _ _) as [[msg h]|e];
      cbn in H; injection H as <-; by apply Hsame.
  - exfalso.
    destruct (feedback_section _ _ _ _ _ _ _ _) as [[msg d']|e] eqn:Heq;
      cbn in H; injection H as <-; [|by apply Hsame].
    apply feedback_section_effect in Heq as [Hdb _]. by apply Husers.
  - exfalso. injection H as <-. by apply Hsame.
  - apply andb_prop in Hguard as [_ Hadmin].
    destruct (admin_panel _ _ _) as [d'|e] eqn:Hsave; cbn in H; injection H as <-;
      [|exfalso; by apply Hsame].
    split.
    + unfold is_admin in Hadmin. destruct (username (session s)); [|done].
      apply String.eqb_eq in Hadmin. by subst.
    + do 3 eexists. split; [done|].
      destruct (In_dec string_dec name (map fst edited)) as [Hin|Hout]; [done|].
      destruct (admin_panel_effect _ _ _ _ Hsave) as [_ Hrows].
      destruct (Hrows name) as [_ Hother]. cbn [files] in Hnew.
      rewrite Hother in Hnew by done. congruence.
  - exfalso. injection H as <-. by apply Hsame.
  - exfalso. login_effect H; [|by apply Hsame].
    cbn [files] in Hnew. rewrite (Hu _ _ Hold) in Hnew. congruence.
Qed.

Lemma offers_In options choice : offers options choice = true -> In choice options.
Proof.
  unfold offers. rewrite existsb_exists. intros (x & Hx & Heq).
  apply String.eqb_eq in Heq. by subst.
Qed.

Lemma convert_button_appends unit_type value from_unit to_unit now h :
  (offers categories unit_type && (0 <=? value)%float
   && offers (units unit_type) from_unit && offers (units unit_type) to_unit) = true ->
  exists result,
    convert_units value from_unit to_unit unit_type = Return (Some result)
    /\ convert_button format_value format_6e unit_type value from_unit to_unit now h
       = Return
           (let conversion_str := (format_value value ++ " " ++ from_unit ++ " = "
                                   ++ format_6e result ++ " " ++ to_unit)%string in
            (conversion_str, h ++ [{| time := now; conversion := conversion_str |}])).
Proof.
  intros Hoffered.
  apply andb_prop in Hoffered as [Hoffered Hto].
  apply andb_prop in Hoffered as [Hoffered Hfrom].
  apply andb_prop in Hoffered as [Htype _].
  apply offers_In in Htype, Hfrom, Hto.
  destruct (convert_units_offered value _ _ _ Htype Hfrom Hto) as [result Hresult].
  exists result. split; [exact Hresult|].
  unfold convert_button. rewrite Hresult. reflexivity.
Qed.

(** A conversion the page offers never fails: the run appends its
    entry to the history and changes nothing else, and the entry heads
    the history shown. *)
Theorem convert_appends unit_type value from_unit to_unit now s s' :
  main (CONVERT unit_type value from_unit to_unit now) s = Some s' ->
  exists result e,
    convert_units value from_unit to_unit unit_type = Return (Some result)
    /\ e = {| time := now;
              conversion := (format_value value ++ " " ++ from_unit ++ " = "
                             ++ format_6e result ++ " " ++ to_unit)%string |}
    /\ history s' = history s ++ [e]
    /\ session s' = session s /\ files s' = files s
    /\ head (conversion_history (history s')) = Some e.
Proof.
  intros H. run_cases H.
  destruct (convert_button_appends _ _ _ _ now (history s) Hguard) as (result & Hresult & Heq).
  rewrite Heq in H. cbn in H. injection H as <-.
  do 2 eexists. split; [exact Hresult|]. split; [reflexivity|]. cbn.
  repeat (split; [reflexivity|]).
  unfold conversion_history. rewrite <- firstn_rev, rev_app_distr. reflexivity.
Qed.

Lemma main_history ev s s' :
  main ev s = Some s' ->
  exists added, history s' = history s ++ added
                /\ length added = if is_convert ev then 1 else 0.
Proof.
  intros H. destruct (is_convert ev) eqn:Hev.
  - destruct ev; try discriminate. run_cases H.
    destruct (convert_button_appends _ _ _ _ now (history s) Hguard) as (result & _ & Heq).
    rewrite Heq in H. cbn in H. injection H as <-. cbn. eauto.
  - exists []. rewrite app_nil_r. split; [|done].
    run_cases H.
    + by injection H as <-.
    + by injection H as <-.
    + destruct (feedback_section _ _ _ _ _ _ _ _) as [[msg d']|e];
        cbn in H; by injection H as <-.
    + by injection H as <-.
    + destruct (admin_panel _ _ _) as [d'|e]; cbn in H; by injection H as <-.
    + by injection H as <-.
    + login_effect H; reflexivity.
Qed.

(** Each conversion adds one entry to the history of the session and
    no other run changes it, a logout and a login under another
    username included. *)
Theorem history_kept evs s s' :
  run evs s = Some s' ->
  exists added, history s' = history s ++ added
                /\ length added = length (List.filter is_convert evs).
Proof.
  revert s. induction evs as [|ev evs IH]; intros s; unfold_run.
  - intros [= <-]. exists []. by rewrite app_nil_r.
  - destruct (main ev s) as [s1|] eqn:Hmain; [|discriminate].
    intros Hrun. destruct (main_history _ _ _ Hmain) as (a1 & Ha1 & Hlen1).
    destruct (IH _ Hrun) as (a2 & Ha2 & Hlen2).
    exists (a1 ++ a2). split; [by rewrite Ha2, Ha1, <- app_assoc|].
    rewrite length_app, Hlen1, Hlen2. cbn [List.filter].
    by destruct (is_convert ev).
Qed.

(** [review_section] gets to its end for every choice of its select
    boxes when [load_feedback] reads the file and
    [datetime.fromisoformat] accepts the stored timestamps. *)
Lemma reviews_render_stored min_rating sort_order d :
  decodable (FEEDBACK_DB d) = true ->
  review_choices min_rating sort_order = true ->
  Forall (fun f => fromisoformat (fb_timestamp f) = true) (stored_feedback d) ->
  reviews_render fromisoformat min_rating sort_order d = true.
Proof.
  intros Hd Hchoice Hiso. apply andb_prop in Hchoice as [Hmin _].
  apply andb_prop in Hmin as [Hmin _]. apply Z.leb_le in Hmin.
  unfold reviews_render.
  rewrite (review_section_filter _ _ _ _ Hmin (load_feedback_stored d Hd)). cbv zeta.
  set (l := List.filter (selected min_rating) (map fill_visible (stored_feedback d))).
  assert (Hl : forall out, Permutation out l ->
                 forallb (fun f => fromisoformat (fb_timestamp f)) out = true).
  { intros out Hperm. apply forallb_forall. intros f Hf.
    apply (Permutation_in _ Hperm) in Hf. apply filter_In in Hf as [Hf _].
    apply in_map_iff in Hf as (g & <- & Hg). rewrite fill_visible_timestamp.
    rewrite List.Forall_forall in Hiso. by apply Hiso. }
  destruct (String.eqb sort_order "Highest Rating").
  - destruct (list_sort_reverse rating_key _ _
                (selected_rated min_rating (map fill_visible (stored_feedback d))))
      as (out & Hout & Hperm & _). unfold l. rewrite Hout. by apply Hl.
  - destruct (list_sort_reverse_by String.ltb String.eqb string_ltb_asym string_leb_trans
                (fun a b => proj1 (String.eqb_eq a b)) timestamp_key fb_timestamp l)
      as (out & Hout & Hperm & _); [by apply List.Forall_forall|].
    rewrite Hout. by apply Hl.
Qed.

Lemma main_register username pw s :
  decodable (USER_DB (files s)) = true ->
  authenticated (session s) = false ->
  stored_users (files s) !! username = None ->
  8 <= len pw ->
  main (AUTH REGISTER username pw) s
  = Some {| session := session s;
            history := history s;
            files := {| USER_DB := Stored (<[username := {| password := hash_password pw;
                                                            role := "user" |}]>
                                             (stored_users (files s)));
                        FEEDBACK_DB := FEEDBACK_DB (files s) |} |}.
Proof.
  intros Hd Hauth Hfree Hlen. unfold_main. cbv zeta. rewrite Hauth. cbn [negb].
  unfold login_section. destruct (Nat.leb_spec 8 (len pw)); [|lia].
  unfold register_user. rewrite load_users_stored by done. cbn [mbind py_bind].
  rewrite Hfree. reflexivity.
Qed.

Lemma main_login username pw s u :
  authenticated (session s) = false ->
  stored_users (files s) !! username = Some u ->
  password u = hash_password pw ->
  main (AUTH LOGIN username pw) s
  = Some {| session := {| authenticated := true; username := Some username |};
            history := history s;
            files := files s |}.
Proof.
  intros Hauth Hu Hpw. unfold_main. cbv zeta. rewrite Hauth. cbn [negb].
  unfold login_section, authenticate_user.
  rewrite load_users_stored by (by eapply stored_users_decodable).
  cbn [mbind py_bind]. rewrite Hu. destruct u as [stored r]. cbn in Hpw. subst stored.
  rewrite String.eqb_refl. reflexivity.
Qed.

(** Whoever registers a free username through the form, with 8
    characters or more, is then logged in by the form under the same
    password, over a users file that [load_users] reads or takes for
    empty. *)
Theorem register_then_login username pw d :
  decodable (USER_DB d) = true ->
  stored_users d !! username = None ->
  8 <= len pw ->
  exists s,
    run [AUTH REGISTER username pw; AUTH LOGIN username pw] (initial d) = Some s
    /\ session s = {| authenticated := true; username := Some username |}
    /\ stored_users (files s) !! username
       = Some {| password := hash_password pw; role := "user" |}.
Proof.
  intros Hd Hfree Hlen. unfold_run.
  rewrite main_register by done.
  erewrite main_login; [|done|cbn; apply lookup_insert_eq|done].
  eexists. split; [reflexivity|]. split; [reflexivity|]. cbn. apply lookup_insert_eq.
Qed.

(** The admin panel opens on the username alone: whoever registers
    [ADMIN_USER] while it is free and logs in can give any stored user
    any role, with the role "user" of their own, on a page whose
    reviews render: [load_feedback] reads the feedback file and
    [datetime.fromisoformat] accepts its timestamps. *)
Theorem admin_by_name pw d name u new_role min_rating sort_order :
  decodable (FEEDBACK_DB d) = true ->
  stored_users d !! ADMIN_USER = None ->
  8 <= len pw ->
  stored_users d !! name = Some u ->
  review_choices min_rating sort_order = true ->
  Forall (fun f => fromisoformat (fb_timestamp f) = true) (stored_feedback d) ->
  exists s,
    run [AUTH REGISTER ADMIN_USER pw; AUTH LOGIN ADMIN_USER pw;
         SAVE_ROLES min_rating sort_order [(name, new_role)]] (initial d) = Some s
    /\ stored_users (files s) !! ADMIN_USER
       = Some {| password := hash_password pw; role := "user" |}
    /\ stored_users (files s) !! name
       = Some {| password := password u; role := new_role |}.
Proof.
  intros Hd Hfree Hlen Hname Hchoice Hiso.
  assert (Hne : ADMIN_USER <> name) by (intros <-; congruence).
  unfold_run. rewrite main_register by (done || by eapply stored_users_decodable).
  erewrite main_login; [|done|cbn; apply lookup_insert_eq|done].
  unfold_main. cbv zeta.
  cbn [initial session history authenticated negb is_admin username files].
  rewrite Hchoice, String.eqb_refl. cbn [andb].
  rewrite reviews_render_stored by done.
  unfold admin_panel. cbn [is_admin username].
  rewrite String.eqb_refl, load_users_stored by done.
  cbn [mbind py_bind stored_users USER_DB set_roles].
  rewrite lookup_insert_ne, Hname by done. cbn [mbind py_bind save_users leaves].
  eexists. split; [reflexivity|]. cbn [files stored_users USER_DB]. split.
  - rewrite lookup_insert_ne by done. apply lookup_insert_eq.
  - apply lookup_insert_eq.
Qed.

(** On a page whose feedback file [load_feedback] reads and whose
    stored timestamps [datetime.fromisoformat] accepts, a feedback the
    page takes is stored once, after the ones stored, under the
    username of the session, with its text, a rating from 1 to 5 and
    [visible = True]; the run changes nothing else. *)
Theorem submit_appends min_rating sort_order feedback rating now now_iso s s' :
  main (SUBMIT min_rating sort_order feedback rating now now_iso) s = Some s' ->
  decodable (FEEDBACK_DB (files s)) = true ->
  Forall (fun f => fromisoformat (fb_timestamp f) = true) (stored_feedback (files s)) ->
  exists new,
    stored_feedback (files s') = stored_feedback (files s) ++ [new]
    /\ username (session s) = Some (fb_username new)
    /\ fb_feedback new = feedback /\ fb_timestamp new = now_iso
    /\ fb_rating new = Some rating /\ (1 <= rating <= 5)%Z
    /\ fb_visible new = Some true
    /\ USER_DB (files s') = USER_DB (files s)
    /\ session s' = session s /\ history s' = history s.
Proof.
  intros H Hd Hiso. run_cases H.
  2: { apply andb_prop in Hguard as [Hchoice _].
       by rewrite reviews_render_stored in Hrender. }
  apply andb_prop in Hguard as [_ Hrating].
  apply andb_prop in Hrating as [Hlo Hhi]. apply Z.leb_le in Hlo, Hhi.
  unfold feedback_section in H. rewrite Hauth in H.
  destruct (save_feedback_stored analyze_sentiment now now_iso user feedback rating (files s)
              Hd)
    as (new & Hsave & Hname & Htext & Hr & _ & Hts & Hvisible & _).
  rewrite Hsave in H. cbn in H. injection H as <-. cbn.
  exists new. rewrite Hname. repeat split; done || lia.
Qed.

(** A run leaves a feedback file that [load_feedback] reads one that
    it reads. *)
Lemma main_decodable ev s s' :
  main ev s = Some s' ->
  decodable (FEEDBACK_DB (files s)) = true ->
  decodable (FEEDBACK_DB (files s')) = true.
Proof.
  intros H Hd.
  assert (Hsame : FEEDBACK_DB (files s') = FEEDBACK_DB (files s) ->
                  decodable (FEEDBACK_DB (files s')) = true).
  { intros Hs. by rewrite Hs. }
  run_cases H.
  - injection H as <-. by apply Hsame.
  - injection H as <-. by apply Hsame.
  - destruct (convert_button _ _ _ _ _ _ _ _) as [[msg h]|e];
      cbn in H; injection H as <-; by apply Hsame.
  - unfold feedback_section in H. rewrite Hauth in H.
    destruct (save_feedback_stored analyze_sentiment now now_iso user feedback rating
                (files s) Hd) as (new & Hsave & _).
    rewrite Hsave in H. cbn in H. by injection H as <-.
  - injection H as <-. by apply Hsame.
  - destruct (admin_panel _ _ _) as [d'|e] eqn:Hsave; cbn in H; injection H as <-;
      apply Hsame; [|done].
    by destruct (admin_panel_effect _ _ _ _ Hsave) as [Hdb _].
  - injection H as <-. by apply Hsame.
  - login_effect H; by apply Hsame.
Qed.

Lemma main_timestamps ev s s' :
  main ev s = Some s' ->
  clock_accepted fromisoformat ev = true ->
  Forall (fun f => fromisoformat (fb_timestamp f) = true) (stored_feedback (files s)) ->
  Forall (fun f => fromisoformat (fb_timestamp f) = true) (stored_feedback (files s')).
Proof.
  intros H Hclock Hiso.
  assert (Hsame : FEEDBACK_DB (files s') = FEEDBACK_DB (files s) ->
                  Forall (fun f => fromisoformat (fb_timestamp f) = true)
                         (stored_feedback (files s'))).
  { intros Hs. unfold stored_feedback in *. by rewrite Hs. }
  run_cases H.
  - injection H as <-. by apply Hsame.
  - injection H as <-. by apply Hsame.
  - destruct (convert_button _ _ _ _ _ _ _ _) as [[msg h]|e];
      cbn in H; injection H as <-; by apply Hsame.
  - unfold feedback_section in H. rewrite Hauth in H.
    destruct (decodable (FEEDBACK_DB (files s))) eqn:Hd.
    + destruct (save_feedback_stored analyze_sentiment now now_iso user feedback rating
                  (files s) Hd) as (new & Hsave & _ & _ & _ & _ & Hts & _).
      rewrite Hsave in H. cbn in H. injection H as <-. cbn.
      apply List.Forall_app. split; [exact Hiso|]. constructor; [|constructor].
      by rewrite Hts.
    + rewrite save_feedback_undecodable in H by done. cbn in H. injection H as <-.
      by apply Hsame.
  - injection H as <-. by apply Hsame.
  - destruct (admin_panel _ _ _) as [d'|e] eqn:Hsave; cbn in H; injection H as <-;
      apply Hsame; [|done].
    by destruct (admin_panel_effect _ _ _ _ Hsave) as [Hdb _].
  - injection H as <-. by apply Hsame.
  - login_effect H; by apply Hsame.
Qed.

(** The reviews keep rendering: when [load_feedback] reads the
    feedback file and [datetime.fromisoformat] accepts the stored
    timestamps and the ones the runs read from the clock, it accepts
    the stored timestamps after the runs, and [review_section] then
    gets to its end for every choice of its select boxes. *)
Theorem reviews_keep_rendering evs s s' min_rating sort_order :
  run evs s = Some s' ->
  decodable (FEEDBACK_DB (files s)) = true ->
  Forall (fun ev => clock_accepted fromisoformat ev = true) evs ->
  Forall (fun f => fromisoformat (fb_timestamp f) = true) (stored_feedback (files s)) ->
  review_choices min_rating sort_order = true ->
  Forall (fun f => fromisoformat (fb_timestamp f) = true) (stored_feedback (files s'))
  /\ reviews_render fromisoformat min_rating sort_order (files s') = true.
Proof.
  intros Hrun Hd Hclock Hiso Hchoice.
  assert (Hiso' : decodable (FEEDBACK_DB (files s')) = true
                  /\ Forall (fun f => fromisoformat (fb_timestamp f) = true)
                            (stored_feedback (files s'))).
  { revert s Hrun Hd Hiso. induction Hclock as [|ev evs Hev _ IH]; intros s; unfold_run.
    - by intros [= <-].
    - destruct (main ev s) as [s1|] eqn:Hmain; [|discriminate].
      intros Hrun Hd Hiso. apply (IH s1 Hrun).
      + by eapply main_decodable.
      + by eapply main_timestamps. }
  destruct Hiso' as [Hd' Hiso']. split; [exact Hiso'|]. by apply reviews_render_stored.
Qed.
End Runs.

(** ** Example runs *)

Lemma run_keeps_witness :
  let d := {| USER_DB := Missing; FEEDBACK_DB := Missing |} in
  let evs := [AUTH REGISTER "alice" "longpassword"; AUTH LOGIN "alice" "longpassword";
              SUBMIT 3 "Newest First" "Great tool!" 5 "2025-03-01 10:00:00.000100"
                     "2025-03-01T10:00:00.000200";
              LOGOUT] in
  exists s,
    run example_sentiment example_format example_format example_fromisoformat evs (initial d)
    = Some s
    /\ keeps (files (initial d)) (files s).
Proof.
  intros d evs.
  destruct (run example_sentiment example_format example_format example_fromisoformat
              evs (initial d)) as [s|] eqn:Hrun; [|vm_compute in Hrun; discriminate].
  exists s. split; [reflexivity|].
  exact (run_keeps _ _ _ _ evs (initial d) s Hrun).
Defined.

Lemma session_invariant_witness :
  let d := {| USER_DB := Missing; FEEDBACK_DB := Missing |} in
  let evs := [AUTH REGISTER "alice" "longpassword"; AUTH LOGIN "alice" "longpassword"] in
  exists s,
    run example_sentiment example_format example_format example_fromisoformat evs (initial d)
    = Some s
    /\ session_ok s.
Proof.
  intros d evs.
  destruct (run example_sentiment example_format example_format example_fromisoformat
              evs (initial d)) as [s|] eqn:Hrun; [|vm_compute in Hrun; discriminate].
  exists s. split; [reflexivity|].
  exact (session_invariant _ _ _ _ evs d s Hrun).
Defined.

Lemma users_changed_by_admin_witness :
  let alice := {| password := hash_password "longpassword"; role := "user" |} in
  let s := {| session := {| authenticated := true; username := Some ADMIN_USER |};
              history := [];
              files := {| USER_DB := Stored {[ "alice" := alice ]};
                          FEEDBACK_DB := Missing |} |} in
  username (session s) = Some ADMIN_USER
  /\ exists min_rating sort_order edited,
       SAVE_ROLES 3 "Newest First" [("alice", "admin")]
       = SAVE_ROLES min_rating sort_order edited
       /\ In "alice" (map fst edited).
Proof.
  intros alice s.
  eapply (users_changed_by_admin example_sentiment example_format example_format
            example_fromisoformat
            (SAVE_ROLES 3 "Newest First" [("alice", "admin")]) s _ "alice" alice
            {| password := hash_password "longpassword"; role := "admin" |}).
  - vm_compute. reflexivity.
  - reflexivity.
  - reflexivity.
  - vm_compute. discriminate.
Defined.

Lemma convert_appends_witness :
  let s := {| session := {| authenticated := true; username := Some "alice" |};
              history := [];
              files := {| USER_DB := Missing; FEEDBACK_DB := Missing |} |} in
  exists s' result e,
    main example_sentiment example_format example_format example_fromisoformat
      (CONVERT "Length" 2 "feet" "m" "10:00:00") s = Some s'
    /\ convert_units 2 "feet" "m" "Length" = Return (Some result)
    /\ e = {| time := "10:00:00";
              conversion := (example_format 2 ++ " " ++ "feet" ++ " = "
                             ++ example_format result ++ " " ++ "m")%string |}
    /\ history s' = history s ++ [e]
    /\ session s' = session s /\ files s' = files s
    /\ head (conversion_history (history s')) = Some e.
Proof.
  intros s.
  destruct (main example_sentiment example_format example_format example_fromisoformat
              (CONVERT "Length" 2 "feet" "m" "10:00:00") s)
    as [s'|] eqn:Hmain; [|vm_compute in Hmain; discriminate].
  destruct (convert_appends _ _ _ _ _ _ _ _ _ _ _ Hmain) as (result & e & H).
  exists s', result, e. split; [reflexivity | exact H].
Defined.

Lemma history_kept_witness :
  let s := {| session := {| authenticated := true; username := Some "alice" |};
              history := [];
              files := {| USER_DB := Missing; FEEDBACK_DB := Missing |} |} in
  let evs := [CONVERT "Length" 2 "feet" "m" "10:00:00"; LOGOUT] in
  exists s' added,
    run example_sentiment example_format example_format example_fromisoformat evs s = Some s'
    /\ history s' = history s ++ added
    /\ length added = length (List.filter is_convert evs).
Proof.
  intros s evs.
  destruct (run example_sentiment example_format example_format example_fromisoformat evs s)
    as [s'|] eqn:Hrun; [|vm_compute in Hrun; discriminate].
  destruct (history_kept _ _ _ _ _ _ _ Hrun) as (added & H).
  exists s', added. split; [reflexivity | exact H].
Defined.

Lemma register_then_login_witness :
  let d := {| USER_DB := Malformed; FEEDBACK_DB := Missing |} in
  exists s,
    run example_sentiment example_format example_format example_fromisoformat
      [AUTH REGISTER "alice" "longpassword"; AUTH LOGIN "alice" "longpassword"]
      (initial d) = Some s
    /\ session s = {| authenticated := true; username := Some "alice" |}
    /\ stored_users (files s) !! "alice"
       = Some {| password := hash_password "longpassword"; role := "user" |}.
Proof.
  intros d.
  apply (register_then_login example_sentiment example_format example_format
           example_fromisoformat "alice" "longpassword" d).
  - reflexivity.
  - reflexivity.
  - vm_compute. lia.
Defined.

Lemma admin_by_name_witness :
  let alice := {| password := hash_password "longpassword"; role := "user" |} in
  let d := {| USER_DB := Stored {[ "alice" := alice ]};
              FEEDBACK_DB := FEEDBACK_DB example_disk |} in
  exists s,
    run example_sentiment example_format example_format example_fromisoformat
      [AUTH REGISTER ADMIN_USER "12345678"; AUTH LOGIN ADMIN_USER "12345678";
       SAVE_ROLES 3 "Highest Rating" [("alice", "admin")]] (initial d) = Some s
    /\ stored_users (files s) !! ADMIN_USER
       = Some {| password := hash_password "12345678"; role := "user" |}
    /\ stored_users (files s) !! "alice"
       = Some {| password := password alice; role := "admin" |}.
Proof.
  intros alice d.
  apply (admin_by_name example_sentiment example_format example_format
           example_fromisoformat "12345678" d "alice" alice "admin" 3 "Highest Rating").
  - reflexivity.
  - reflexivity.
  - vm_compute. lia.
  - reflexivity.
  - reflexivity.
  - vm_compute. repeat constructor.
Defined.

Lemma submit_appends_witness :
  let s := {| session := {| authenticated := true; username := Some "alice" |};
              history := [];
              files := {| USER_DB := Missing; FEEDBACK_DB := FEEDBACK_DB example_disk |} |} in
  exists s' new,
    main example_sentiment example_format example_format example_fromisoformat
      (SUBMIT 3 "Newest First" "Great tool!" 4 "2025-03-02 09:00:00.000100"
              "2025-03-02T09:00:00.000200") s
    = Some s'
    /\ stored_feedback (files s') = stored_feedback (files s) ++ [new]
    /\ username (session s) = Some (fb_username new)
    /\ fb_feedback new = "Great tool!" /\ fb_timestamp new = "2025-03-02T09:00:00.000200"
    /\ fb_rating new = Some 4%Z /\ (1 <= 4 <= 5)%Z
    /\ fb_visible new = Some true
    /\ USER_DB (files s') = USER_DB (files s)
    /\ session s' = session s /\ history s' = history s.
Proof.
  intros s.
  destruct (main example_sentiment example_format example_format example_fromisoformat
              (SUBMIT 3 "Newest First" "Great tool!" 4 "2025-03-02 09:00:00.000100"
                      "2025-03-02T09:00:00.000200") s)
    as [s'|] eqn:Hmain; [|vm_compute in Hmain; discriminate].
  destruct (submit_appends _ _ _ _ _ _ _ _ _ _ _ _ Hmain) as (new & H).
  { reflexivity. }
  { vm_compute. repeat constructor. }
  exists s', new. split; [reflexivity | exact H].
Defined.

Lemma reviews_keep_rendering_witness :
  let s := {| session := {| authenticated := true; username := Some "alice" |};
              history := [];
              files := {| USER_DB := Missing; FEEDBACK_DB := FEEDBACK_DB example_disk |} |} in
  let evs := [SUBMIT 3 "Newest First" "Great tool!" 4 "2025-03-02 09:00:00.000100"
                     "2025-03-02T09:00:00.000200"; LOGOUT] in
  exists s',
    run example_sentiment example_format example_format example_fromisoformat evs s = Some s'
    /\ Forall (fun f => example_fromisoformat (fb_timestamp f) = true)
              (stored_feedback (files s'))
    /\ reviews_render example_fromisoformat 1 "Highest Rating" (files s') = true.
Proof.
  intros s evs.
  destruct (run example_sentiment example_format example_format example_fromisoformat evs s)
    as [s'|] eqn:Hrun; [|vm_compute in Hrun; discriminate].
  exists s'. split; [reflexivity|].
  apply (reviews_keep_rendering _ _ _ _ evs s s' 1 "Highest Rating" Hrun).
  - reflexivity.
  - repeat constructor.
  - vm_compute. repeat constructor.
  - reflexivity.
Defined.
